(** * aos/devices.py: managed devices, system agents and device profiles

    A shallow embedding of the three resource accessors of [aos/devices.py]
    ([AosManagedDevices], [AosSystemAgents], [AosDeviceProfiles]) over an
    abstract REST transport, and the properties of them that the
    specification states.

    - JSON bodies are values of [json]; a decoded object is an association
      list, so that iteration over a dict follows insertion order as it does
      in Python.
    - Python exceptions are values of [exn]; a call either returns or raises
      ([result]).
    - The transport ([self.rest]) is an interface ([Rest]) over a state the
      module never inspects.  Every method runs in the monad [M]: it threads
      the transport state, stops at the first exception, and produces the
      sequence of requests and pauses it performed ([event]). *)

From Stdlib Require Import String List ZArith Bool Arith Lia.
Import ListNotations.
Open Scope string_scope.
Open Scope list_scope.

Set Implicit Arguments.

(** ** Decoded JSON and the Python operations applied to it *)

(** [JNull] is Python's [None], both for a JSON [null] and for an empty
    response body.  Numbers are the integers; no operation of this module
    tells a fractional number from an integer other than zero. *)
#[warnings="-register-all"]
Inductive json : Type :=
| JNull
| JBool (b : bool)
| JNum (n : Z)
| JStr (s : string)
| JArr (items : list json)
| JObj (fields : list (string * json)).

Inductive exn : Type :=
| KeyError (key : string)
| TypeError
| AttributeError
| AosAPIError (msg : string).

Inductive result (A : Type) : Type :=
| Ok (a : A)
| Err (e : exn).
Arguments Ok {A} a.
Arguments Err {A} e.

(** Lookup of a key in a decoded object. *)
Fixpoint lookup (k : string) (fields : list (string * json)) : option json :=
  match fields with
  | [] => None
  | (k', v) :: tl => if String.eqb k k' then Some v else lookup k tl
  end.

(** [v is None] *)
Definition is_None (v : json) : bool :=
  match v with JNull => true | _ => false end.

(** Truth value of [v] in [if v:]. *)
Definition truthy (v : json) : bool :=
  match v with
  | JNull => false
  | JBool b => b
  | JNum n => negb (Z.eqb n 0)
  | JStr s => negb (String.eqb s "")
  | JArr items => match items with [] => false | _ => true end
  | JObj fields => match fields with [] => false | _ => true end
  end.

(** [v[k]] for a string key [k]: a dict raises [KeyError] on a missing key,
    every other value raises [TypeError]. *)
Definition subscript (v : json) (k : string) : result json :=
  match v with
  | JObj fields =>
      match lookup k fields with
      | Some x => Ok x
      | None => Err (KeyError k)
      end
  | _ => Err TypeError
  end.

(** [v.get(k, default)]: only a dict has the method. *)
Definition get_default (v : json) (k : string) (default : json) : result json :=
  match v with
  | JObj fields =>
      match lookup k fields with
      | Some x => Ok x
      | None => Ok default
      end
  | _ => Err AttributeError
  end.

(** [v.get(k)] *)
Definition get (v : json) (k : string) : result json := get_default v k JNull.

Fixpoint chars (s : string) : list json :=
  match s with
  | EmptyString => []
  | String c tl => JStr (String c EmptyString) :: chars tl
  end.

(** The elements [for x in v] goes through: the items of a list, the keys
    of a dict, the characters of a string; nothing else is iterable. *)
Definition iter (v : json) : result (list json) :=
  match v with
  | JArr items => Ok items
  | JObj fields => Ok (map (fun kv => JStr (fst kv)) fields)
  | JStr s => Ok (chars s)
  | _ => Err TypeError
  end.

(** [v == s] for a string [s]. *)
Definition eq_str (v : json) (s : string) : bool :=
  match v with
  | JStr s' => String.eqb s' s
  | _ => false
  end.

(** [f"{x}"] for an optional string argument. *)
Definition format (x : option string) : string :=
  match x with
  | Some s => s
  | None => "None"
  end.

(** ** Requests, pauses and the transport *)

Inductive event : Type :=
| Get (uri : string)
| Post (uri : string) (data : option json)
| Delete (uri : string)
| Sleep (secs : Z).

(** [self.rest]: what the controller answers to a request, in a state of its
    own.  [None] as the data of a POST is a call without [data]. *)
Class Rest (T : Type) : Type := {
  do_get : string -> T -> result json * T;
  do_post : string -> option json -> T -> result json * T;
  do_delete : string -> T -> result json * T
}.

(** A method run from a transport state: its outcome, the state it leaves
    and what it did, oldest first. *)
Definition M (T A : Type) : Type := T -> result A * T * list event.

Definition ret {T A : Type} (a : A) : M T A :=
  fun st => (Ok a, st, []).

Definition raise {T A : Type} (e : exn) : M T A :=
  fun st => (Err e, st, []).

Definition lift {T A : Type} (r : result A) : M T A :=
  fun st => (r, st, []).

(** Sequencing of the pure steps of a method. *)
Definition rbind {A B : Type} (r : result A) (f : A -> result B) : result B :=
  match r with
  | Ok a => f a
  | Err e => Err e
  end.

(** A list comprehension [[f(x) for x in l]]: the items in order, up to the
    first one that raises. *)
Fixpoint comprehension {A B : Type} (f : A -> result B) (l : list A)
  : result (list B) :=
  match l with
  | [] => Ok []
  | x :: tl =>
      rbind (f x) (fun y =>
      rbind (comprehension f tl) (fun ys => Ok (y :: ys)))
  end.

Definition bind {T A B : Type} (m : M T A) (f : A -> M T B) : M T B :=
  fun st =>
    match m st with
    | (Ok a, st1, tr1) =>
        match f a st1 with
        | (r, st2, tr2) => (r, st2, tr1 ++ tr2)
        end
    | (Err e, st1, tr1) => (Err e, st1, tr1)
    end.

Declare Scope py_scope.
Delimit Scope py_scope with py.
Notation "x <- m ;; k" := (bind m (fun x => k))
  (at level 100, m at next level, right associativity) : py_scope.
Notation "m ;;; k" := (bind m (fun _ => k))
  (at level 100, right associativity) : py_scope.
Notation "'let?' x := r 'in' k" := (rbind r (fun x => k))
  (at level 100, x name, r at next level, right associativity) : py_scope.
Open Scope py_scope.

Definition outcome {T A : Type} (r : result A * T * list event) : result A :=
  fst (fst r).
Definition final {T A : Type} (r : result A * T * list event) : T :=
  snd (fst r).
Definition trace {T A : Type} (r : result A * T * list event) : list event :=
  snd r.

Section Transport.
Context {T : Type} `{Rest T}.

Definition json_resp_get (uri : string) : M T json :=
  fun st => let (r, st') := do_get uri st in (r, st', [Get uri]).

Definition json_resp_post (uri : string) (data : option json) : M T json :=
  fun st => let (r, st') := do_post uri data st in (r, st', [Post uri data]).

Definition json_resp_delete (uri : string) : M T json :=
  fun st => let (r, st') := do_delete uri st in (r, st', [Delete uri]).

(** [time.sleep(secs)] *)
Definition sleep (secs : Z) : M T unit :=
  fun st => (Ok tt, st, [Sleep secs]).

End Transport.

(** ** The records returned to the caller (the module's namedtuples) *)

Module SystemAgent.
Record t : Type := mk { id : json; fqdn : json; operation_mode : json; vendor : json }.
End SystemAgent.

Module Anomaly.
Record t : Type := mk { type : json; id : json; agent_id : json; severity : json }.
End Anomaly.

Module DevicePackage.
Record t : Type := mk { name : json; version : json }.
End DevicePackage.

Module DeviceOSImage.
Record t : Type := mk {
  description : json;
  checksum : json;
  image_name : json;
  platform : json;
  image_url : json;
  type : json;
  id : json
}.
End DeviceOSImage.

(** ** AosManagedDevices *)

Module AosManagedDevices.
Section Methods.
Context {T : Type} `{Rest T}.

(** The element of the comprehension of [get_all]. *)
Definition system_agent (s : json) : result SystemAgent.t :=
  let? id := subscript s "id" in
  let? status := get_default s "status" (JObj []) in
  let? fqdn := get status "fqdn" in
  let? status' := get_default s "status" (JObj []) in
  let? operation_mode := get status' "operation_mode" in
  let? facts := get_default s "facts" (JObj []) in
  let? vendor := get facts "vendor" in
  Ok (SystemAgent.mk id fqdn operation_mode vendor).

Definition get_all : M T (list SystemAgent.t) :=
  systems <- json_resp_get "/api/systems" ;;
  if is_None systems then ret []
  else
    items <- lift (subscript systems "items") ;;
    elems <- lift (iter items) ;;
    lift (comprehension system_agent elems).

Definition accept_running_config_as_golden (system_agent_id : string) : M T unit :=
  json_resp_post
    ("/api/systems/" ++ system_agent_id ++ "/accept-running-config-as-golden") None ;;;
  ret tt.

(** The value yielded for one raw item. *)
Definition anomaly (a : json) : result Anomaly.t :=
  let? type := subscript a "anomaly_type" in
  let? id := subscript a "id" in
  let? identity := get_default a "identity" (JObj []) in
  let? agent_id := get identity "system_id" in
  let? severity := subscript a "severity" in
  Ok (Anomaly.mk type id agent_id severity).

(** The generator: the request is made when the consumer asks for the first
    element; after it, the generator is the sequence of the values still to
    be yielded, each one built (or raising) only when the consumer reaches
    it. *)
Definition _iter_anomalies (system_agent_id : string) : M T (list (result Anomaly.t)) :=
  anomalies <- json_resp_get ("api/systems/" ++ system_agent_id ++ "/anomalies") ;;
  if is_None anomalies then ret []
  else
    items <- lift (subscript anomalies "items") ;;
    elems <- lift (iter items) ;;
    ret (map anomaly elems).

(** [list(gen)]: runs the generator to its end. *)
Definition list_of {A : Type} (gen : list (result A)) : result (list A) :=
  comprehension (fun r => r) gen.

Definition get_anomalies (system_agent_id : string) : M T (list Anomaly.t) :=
  gen <- _iter_anomalies system_agent_id ;;
  lift (list_of gen).

Definition has_anomalies (system_agent_id : string) : M T bool :=
  l <- get_anomalies system_agent_id ;;
  ret (match l with [] => false | _ => true end).

(** The [for] loop of [has_anomalies_of_type] over the generator. *)
Fixpoint scan_for_type (gen : list (result Anomaly.t)) (anomaly_type : string)
  : result bool :=
  match gen with
  | [] => Ok false
  | Err e :: _ => Err e
  | Ok a :: tl =>
      if eq_str (Anomaly.type a) anomaly_type then Ok true
      else scan_for_type tl anomaly_type
  end.

Definition has_anomalies_of_type (system_agent_id anomaly_type : string) : M T bool :=
  gen <- _iter_anomalies system_agent_id ;;
  lift (scan_for_type gen anomaly_type).

End Methods.
End AosManagedDevices.

(** ** AosSystemAgents *)

Module AosSystemAgents.
Section Methods.
Context {T : Type} `{Rest T}.

Definition device_package (package : json) : result DevicePackage.t :=
  let? name := subscript package "name" in
  let? version := subscript package "version" in
  Ok (DevicePackage.mk name version).

Definition get_packages : M T (list DevicePackage.t) :=
  let p_path := "/api/packages" in
  resp <- json_resp_get p_path ;;
  items <- lift (subscript resp "items") ;;
  elems <- lift (iter items) ;;
  lift (comprehension device_package elems).

Definition device_os_image (image : json) : result DeviceOSImage.t :=
  let? description := subscript image "description" in
  let? checksum := subscript image "checksum" in
  let? image_name := subscript image "image_name" in
  let? platform := subscript image "platform" in
  let? image_url := subscript image "image_url" in
  let? type := subscript image "type" in
  let? id := subscript image "id" in
  Ok (DeviceOSImage.mk description checksum image_name platform image_url type id).

Definition get_os_images : M T (list DeviceOSImage.t) :=
  let p_path := "/api/device-os/images" in
  resp <- json_resp_get p_path ;;
  items <- lift (subscript resp "items") ;;
  elems <- lift (iter items) ;;
  lift (comprehension device_os_image elems).

End Methods.
End AosSystemAgents.

(** ** AosDeviceProfiles *)

Module AosDeviceProfiles.
Section Methods.
Context {T : Type} `{Rest T}.

Definition get_all : M T json :=
  let dp_path := "/api/device-profiles" in
  json_resp_get dp_path.

(** The [for] loop of [get_device_profile]: the first [dp] with
    [dp.get("display_name") == dp_name], if the loop finds one. *)
Fixpoint scan_display_name (dev_profs : list json) (dp_name : string)
  : result (option json) :=
  match dev_profs with
  | [] => Ok None
  | dp :: tl =>
      let? display_name := get dp "display_name" in
      if eq_str display_name dp_name then Ok (Some dp)
      else scan_display_name tl dp_name
  end.

(** [if dp_name:] holds for a string other than the empty one. *)
Definition given (dp_name : option string) : option string :=
  match dp_name with
  | Some s => if String.eqb s "" then None else Some s
  | None => None
  end.

Definition get_device_profile (dp_id dp_name : option string) : M T json :=
  let by_id := json_resp_get ("/api/device-profiles/" ++ format dp_id) in
  match given dp_name with
  | Some name =>
      dev_profs <- get_all ;;
      if truthy dev_profs then
        elems <- lift (iter dev_profs) ;;
        found <- lift (scan_display_name elems name) ;;
        match found with
        | Some dp => ret dp
        | None => raise (AosAPIError ("External Router " ++ name ++ " not found"))
        end
      else by_id
  | None => by_id
  end.

(** The [while] loop of [add_device_profiles], entered with [todo] the
    payloads [dp_list[i:]] still to submit. *)
Fixpoint add_loop (todo : list json) (i : nat) (ids : list json) : M T (list json) :=
  match todo with
  | [] => ret ids
  | payload :: tl =>
      resp <- json_resp_post "/api/device-profiles" (Some payload) ;;
      ids <- (if truthy resp
              then id <- lift (subscript resp "id") ;; ret (ids ++ [id])
              else ret ids) ;;
      let i := (i + 1)%nat in
      (if Nat.eqb (i mod 30) 0 then sleep 3 else ret tt) ;;;
      add_loop tl i ids
  end.

Definition add_device_profiles (dp_list : list json) : M T (list json) :=
  add_loop dp_list 0 [].

(** The [for] loop of [delete_device_profiles]. *)
Fixpoint delete_loop (dp_list : list string) (ids : list string) : M T (list string) :=
  match dp_list with
  | [] => ret ids
  | dp_id :: tl =>
      json_resp_delete ("/api/device-profiles" ++ "/" ++ dp_id) ;;;
      delete_loop tl (ids ++ [dp_id])
  end.

Definition delete_device_profiles (dp_list : list string) : M T (list string) :=
  delete_loop dp_list [].

End Methods.
End AosDeviceProfiles.

(** ** What the transport answers to a batch *)

Section Answers.
Context {T : Type} `{Rest T}.

(** The answers of the controller to the payloads POSTed one after the
    other from the state [st]. *)
Fixpoint post_answers (uri : string) (payloads : list json) (st : T)
  : list (result json) :=
  match payloads with
  | [] => []
  | p :: tl =>
      let (r, st') := do_post uri (Some p) st in
      r :: post_answers uri tl st'
  end.

(** The answers of the controller to the DELETEs of the ids issued one
    after the other from the state [st]. *)
Fixpoint delete_answers (uri : string) (ids : list string) (st : T)
  : list (result json) :=
  match ids with
  | [] => []
  | i :: tl =>
      let (r, st') := do_delete (uri ++ "/" ++ i) st in
      r :: delete_answers uri tl st'
  end.

End Answers.

(** The first exception in a sequence of answers. *)
Fixpoint first_raised (answers : list (result json)) : option exn :=
  match answers with
  | [] => None
  | Ok _ :: tl => first_raised tl
  | Err e :: _ => Some e
  end.

(** The id an answer to a create contributes: none when the answer is falsy. *)
Definition created (r : result json) : list json :=
  match r with
  | Ok (JObj fields) =>
      match lookup "id" fields with
      | Some i => [i]
      | None => []
      end
  | _ => []
  end.

Definition skipped (r : result json) : bool :=
  match r with
  | Ok v => negb (truthy v)
  | Err _ => false
  end.

Definition is_post (e : event) : bool :=
  match e with Post _ _ => true | _ => false end.

Definition is_sleep (e : event) : bool :=
  match e with Sleep _ => true | _ => false end.

(** The payloads with their 1-based position in the batch. *)
Definition numbered {A : Type} (l : list A) : list (nat * A) :=
  combine (seq 1 (length l)) l.

(** ** Transports for the examples *)

(** A controller that plays a script: each request, of any kind, consumes
    the next answer; once the script is over the body is empty. *)
Definition play (st : list (result json)) : result json * list (result json) :=
  match st with
  | [] => (Ok JNull, [])
  | r :: tl => (r, tl)
  end.

#[export] Instance Scripted : Rest (list (result json)) := {
  do_get := fun _ st => play st;
  do_post := fun _ _ st => play st;
  do_delete := fun _ st => play st
}.

(** A controller that numbers the profiles it creates. *)
#[export] Instance Counting : Rest Z := {
  do_get := fun _ n => (Ok JNull, n);
  do_post := fun _ _ n => (Ok (JObj [("id", JNum n)]), (n + 1)%Z);
  do_delete := fun _ n => (Ok JNull, n)
}.

(** ** The shape of well-formed bodies *)

(** A sub-object of an item is either absent or an object. *)
Definition absent_or_object (fields : list (string * json)) (k : string) : Prop :=
  lookup k fields = None \/ exists sub, lookup k fields = Some (JObj sub).

(** The field [inner] of the sub-object [outer] of an item; null when the
    sub-object or the field is absent. *)
Definition nested (fields : list (string * json)) (outer inner : string) : json :=
  match lookup outer fields with
  | Some (JObj sub) =>
      match lookup inner sub with
      | Some v => v
      | None => JNull
      end
  | _ => JNull
  end.

(** The raw item [item] of the systems collection describes the agent [a]. *)
Definition describes_agent (item : json) (a : SystemAgent.t) : Prop :=
  exists fields i,
    item = JObj fields /\
    lookup "id" fields = Some i /\
    absent_or_object fields "status" /\
    absent_or_object fields "facts" /\
    a = SystemAgent.mk i (nested fields "status" "fqdn")
          (nested fields "status" "operation_mode")
          (nested fields "facts" "vendor").

Definition describes_package (item : json) (p : DevicePackage.t) : Prop :=
  exists fields,
    item = JObj fields /\
    lookup "name" fields = Some (DevicePackage.name p) /\
    lookup "version" fields = Some (DevicePackage.version p).

Definition os_image_keys : list string :=
  ["description"; "checksum"; "image_name"; "platform"; "image_url"; "type"; "id"].

Definition describes_os_image (item : json) (img : DeviceOSImage.t) : Prop :=
  exists fields,
    item = JObj fields /\
    lookup "description" fields = Some (DeviceOSImage.description img) /\
    lookup "checksum" fields = Some (DeviceOSImage.checksum img) /\
    lookup "image_name" fields = Some (DeviceOSImage.image_name img) /\
    lookup "platform" fields = Some (DeviceOSImage.platform img) /\
    lookup "image_url" fields = Some (DeviceOSImage.image_url img) /\
    lookup "type" fields = Some (DeviceOSImage.type img) /\
    lookup "id" fields = Some (DeviceOSImage.id img).

(** The item of the specification's example, and a body that holds it. *)
Definition example_item : json :=
  JObj [("id", JStr "s1"); ("status", JObj [("fqdn", JStr "sw1")]); ("facts", JObj [])].

Definition example_systems : json := JObj [("items", JArr [example_item])].

Definition example_agent : SystemAgent.t :=
  SystemAgent.mk (JStr "s1") (JStr "sw1") JNull JNull.

(** An OS image with the seven fields, and the same image without its id. *)
Definition example_image_without_id : json :=
  JObj [("description", JStr "EOS 4.24"); ("checksum", JStr "ab12");
        ("image_name", JStr "eos.swi"); ("platform", JStr "eos");
        ("image_url", JStr "http://images/eos.swi"); ("type", JStr "swi")].

Definition example_image : json :=
  JObj [("description", JStr "EOS 4.24"); ("checksum", JStr "ab12");
        ("image_name", JStr "eos.swi"); ("platform", JStr "eos");
        ("image_url", JStr "http://images/eos.swi"); ("type", JStr "swi");
        ("id", JStr "img1")].

Definition example_os_image : DeviceOSImage.t :=
  DeviceOSImage.mk (JStr "EOS 4.24") (JStr "ab12") (JStr "eos.swi") (JStr "eos")
    (JStr "http://images/eos.swi") (JStr "swi") (JStr "img1").

(** An anomaly as the controller reports it, and a body whose second item
    lacks the keys of an anomaly. *)
Definition example_anomaly : json :=
  JObj [("anomaly_type", JStr "bgp"); ("id", JStr "a1"); ("severity", JStr "critical")].

Definition example_anomalies : json := JObj [("items", JArr [example_anomaly])].

Definition ragged_anomalies : json := JObj [("items", JArr [example_anomaly; JObj []])].

(** ** Device profiles as the lookup by name sees them *)

Definition is_object (v : json) : Prop := exists fields, v = JObj fields.

(** [dp] is an object whose [display_name] field equals [name]. *)
Definition has_display_name (name : string) (dp : json) : bool :=
  match dp with
  | JObj fields =>
      match lookup "display_name" fields with
      | Some v => eq_str v name
      | None => false
      end
  | _ => false
  end.

Definition not_found (name : string) : exn :=
  AosAPIError ("External Router " ++ name ++ " not found").

Definition example_profile (id name : string) : json :=
  JObj [("id", JStr id); ("display_name", JStr name)].

(** ** Batches of device profiles *)

(** An answer to a create that the loop of [add_device_profiles] goes past:
    a falsy body, or an object that carries an id. *)
Definition acceptable (r : result json) : Prop :=
  exists v,
    r = Ok v /\
    (truthy v = false \/
     exists fields i, v = JObj fields /\ lookup "id" fields = Some i).

(** The answer [r] is an object whose id is [i]. *)
Definition answers_id (r : result json) (i : json) : Prop :=
  exists fields, r = Ok (JObj fields) /\ lookup "id" fields = Some i.

Definition post_of (payload : json) : event :=
  Post "/api/device-profiles" (Some payload).

Definition delete_of (dp_id : string) : event :=
  Delete ("/api/device-profiles/" ++ dp_id).

(** What follows the [k]-th submission: a pause of 3 when [k] is a
    multiple of 30, nothing otherwise. *)
Definition pause_after (k : nat) : list event :=
  if Nat.eqb (k mod 30) 0 then [Sleep 3] else [].

Definition submission (kp : nat * json) : list event :=
  post_of (snd kp) :: pause_after (fst kp).

(** A batch of 31 payloads and the ids the counting controller gives them
    when it starts from 100. *)
Definition example_batch : list json :=
  map (fun k => JObj [("slot_count", JNum (Z.of_nat k))]) (seq 1 31).

Definition example_ids : list json :=
  map (fun k => JNum (Z.of_nat k)) (seq 100 31).

(** ** Shapes used by the further properties *)

(** The raw item [item] of an anomalies collection describes the anomaly [a]. *)
Definition describes_anomaly (item : json) (a : Anomaly.t) : Prop :=
  exists fields t i s,
    item = JObj fields /\
    lookup "anomaly_type" fields = Some t /\
    lookup "id" fields = Some i /\
    lookup "severity" fields = Some s /\
    absent_or_object fields "identity" /\
    a = Anomaly.mk t i (nested fields "identity" "system_id") s.

(** What [system_agent] cannot make an agent of: an item without id, or one
    whose status or facts is present and is not an object (a JSON null, for
    one), with the exception it raises. *)
Inductive unfit_system (fields : list (string * json)) : exn -> Prop :=
| unfit_no_id :
    lookup "id" fields = None -> unfit_system fields (KeyError "id")
| unfit_status :
    forall i v,
      lookup "id" fields = Some i ->
      lookup "status" fields = Some v ->
      ~ is_object v ->
      unfit_system fields AttributeError
| unfit_facts :
    forall i v,
      lookup "id" fields = Some i ->
      absent_or_object fields "status" ->
      lookup "facts" fields = Some v ->
      ~ is_object v ->
      unfit_system fields AttributeError.

(** The exception the loop of [add_device_profiles] ends with on the answer
    [r], if it does: the one the transport raised, or the one of [resp["id"]]
    on a truthy body. *)
Definition create_failure (r : result json) : option exn :=
  match r with
  | Err e => Some e
  | Ok v =>
      if truthy v then
        match subscript v "id" with
        | Err e => Some e
        | Ok _ => None
        end
      else None
  end.

Definition package_keys : list string := ["name"; "version"].

(** The first key of [keys] that the object lacks, if it lacks one. *)
Definition first_missing (keys : list string) (fields : list (string * json))
  : option string :=
  find (fun k => match lookup k fields with None => true | Some _ => false end) keys.

(** The path of the anomalies of an agent as the module writes it. *)
Definition anomalies_uri (system_agent_id : string) : string :=
  "api/systems/" ++ system_agent_id ++ "/anomalies".

Definition profile_uri (dp_id : option string) : string :=
  "/api/device-profiles/" ++ format dp_id.

Definition example_anomaly_record : Anomaly.t :=
  Anomaly.mk (JStr "bgp") (JStr "a1") JNull (JStr "critical").

(** An anomaly of another type, which names the system it belongs to. *)
Definition example_route_anomaly : json :=
  JObj [("anomaly_type", JStr "route"); ("id", JStr "a2");
        ("identity", JObj [("system_id", JStr "s1")]); ("severity", JStr "low")].

Definition example_route_record : Anomaly.t :=
  Anomaly.mk (JStr "route") (JStr "a2") (JStr "s1") (JStr "low").

(** A body with two anomalies, of the types bgp and route. *)
Definition example_two_anomalies : json :=
  JObj [("items", JArr [example_anomaly; example_route_anomaly])].

(** * Properties *)

Unset Implicit Arguments.

(** ** Running a method step by step *)

Section Steps.
Context {T : Type} `{Rest T}.

Lemma bind_ok :
  forall (A B : Type) (m : M T A) (f : A -> M T B) st a st1 tr1,
    m st = (Ok a, st1, tr1) ->
    bind m f st =
      (outcome (f a st1), final (f a st1), tr1 ++ trace (f a st1)).
Proof.
  intros A B m f st a st1 tr1 Hm. unfold bind. rewrite Hm.
  destruct (f a st1) as [[r st2] tr2]. reflexivity.
Qed.

Lemma get_answer :
  forall uri st r st',
    do_get uri st = (r, st') -> json_resp_get uri st = (r, st', [Get uri]).
Proof.
  intros uri st r st' Hget. unfold json_resp_get. now rewrite Hget.
Qed.

End Steps.

(** The first step of a method is a GET whose answer is known. *)
Ltac step_get Hget :=
  erewrite bind_ok by (apply get_answer; exact Hget); cbn.

Lemma comprehension_all :
  forall (A B : Type) (f : A -> result B) (l : list A) (l' : list B),
    Forall2 (fun x y => f x = Ok y) l l' -> comprehension f l = Ok l'.
Proof.
  intros A B f l l' Hall. induction Hall as [|x y l l' Hxy _ IH]; simpl.
  - reflexivity.
  - rewrite Hxy. simpl. rewrite IH. reflexivity.
Qed.

Lemma comprehension_raises :
  forall (A B : Type) (f : A -> result B) (l : list A) (x : A),
    In x l -> (exists e, f x = Err e) -> exists e, comprehension f l = Err e.
Proof.
  intros A B f l x Hin [e He]. induction l as [|y tl IH]; simpl in *.
  - contradiction.
  - destruct (f y) as [b|e'] eqn:Hy; simpl.
    + destruct Hin as [Heq|Hin].
      * subst y. congruence.
      * destruct (IH Hin) as [e'' Htl]. rewrite Htl. simpl. eauto.
    + eauto.
Qed.

(** ** ManagedDevices: the systems collection *)

Lemma system_agent_described :
  forall item a,
    describes_agent item a -> AosManagedDevices.system_agent item = Ok a.
Proof.
  intros item a (fields & i & -> & Hid & Hstatus & Hfacts & ->).
  unfold AosManagedDevices.system_agent, nested, get. simpl. rewrite Hid. simpl.
  destruct Hstatus as [Hstatus|[status Hstatus]], Hfacts as [Hfacts|[facts Hfacts]];
    rewrite Hstatus, Hfacts; simpl.
  - reflexivity.
  - destruct (lookup "vendor" facts); reflexivity.
  - destruct (lookup "fqdn" status), (lookup "operation_mode" status); reflexivity.
  - destruct (lookup "fqdn" status), (lookup "operation_mode" status),
      (lookup "vendor" facts); reflexivity.
Qed.

(** C4.  ManagedDevices [get_all] returns the empty list, not null and not
    an error, when the body of the response is absent.  Otherwise it maps
    the raw items, in order, to the agents they describe: the id of the
    item, and for fqdn, operation_mode and vendor the field of the status
    or facts sub-object, null when the sub-object or the field is absent.
    An item with neither sub-object gives three null fields, and the item
    [{"id":"s1","status":{"fqdn":"sw1"},"facts":{}}] gives
    [SystemAgent(id="s1", fqdn="sw1", operation_mode=None, vendor=None)]. *)
Theorem managed_devices_get_all :
  forall (T : Type) (R : Rest T) (st st' : T),
    (do_get "/api/systems" st = (Ok JNull, st') ->
     outcome (AosManagedDevices.get_all st) = Ok []) /\
    (forall body items agents,
        do_get "/api/systems" st = (Ok (JObj body), st') ->
        lookup "items" body = Some (JArr items) ->
        Forall2 describes_agent items agents ->
        outcome (AosManagedDevices.get_all st) = Ok agents) /\
    (forall fields i,
        lookup "id" fields = Some i ->
        lookup "status" fields = None ->
        lookup "facts" fields = None ->
        AosManagedDevices.system_agent (JObj fields)
        = Ok (SystemAgent.mk i JNull JNull JNull)) /\
    (do_get "/api/systems" st = (Ok example_systems, st') ->
     outcome (AosManagedDevices.get_all st) = Ok [example_agent]).
Proof.
  intros T R st st'.
  assert (Hitems : forall body items agents,
             do_get "/api/systems" st = (Ok (JObj body), st') ->
             lookup "items" body = Some (JArr items) ->
             Forall2 describes_agent items agents ->
             outcome (AosManagedDevices.get_all st) = Ok agents).
  { intros body items agents Hget Hitems Hall.
    unfold AosManagedDevices.get_all.
    step_get Hget. unfold bind, lift. cbn. rewrite Hitems. cbn.
    erewrite comprehension_all; [reflexivity|].
    eapply Forall2_impl; [|exact Hall]. apply system_agent_described. }
  split; [|split; [|split]].
  - intros Hget. unfold AosManagedDevices.get_all.
    step_get Hget. reflexivity.
  - exact Hitems.
  - intros fields i Hid Hstatus Hfacts.
    apply system_agent_described. exists fields, i.
    unfold absent_or_object, nested. rewrite Hstatus, Hfacts. auto 10.
  - intros Hget. apply (Hitems _ [example_item] _ Hget); [reflexivity|].
    constructor; [|constructor].
    exists [("id", JStr "s1"); ("status", JObj [("fqdn", JStr "sw1")]); ("facts", JObj [])],
      (JStr "s1").
    unfold absent_or_object. simpl. eauto 10.
Qed.

Lemma managed_devices_get_all_witness :
  outcome (AosManagedDevices.get_all [Ok JNull]) = Ok [] /\
  outcome (AosManagedDevices.get_all [Ok example_systems]) = Ok [example_agent] /\
  AosManagedDevices.system_agent (JObj [("id", JStr "s2")])
  = Ok (SystemAgent.mk (JStr "s2") JNull JNull JNull).
Proof.
  split; [|split].
  - apply (proj1 (managed_devices_get_all _ Scripted [Ok JNull] [])). reflexivity.
  - apply (proj2 (proj2 (proj2 (managed_devices_get_all _ Scripted [Ok example_systems] [])))).
    reflexivity.
  - apply (proj1 (proj2 (proj2 (managed_devices_get_all _ Scripted [] []))));
      reflexivity.
Defined.

(** ** SystemAgents: packages and OS images *)

Lemma device_package_described :
  forall item p,
    describes_package item p -> AosSystemAgents.device_package item = Ok p.
Proof.
  intros item [name version] (fields & -> & Hname & Hversion). simpl in *.
  unfold AosSystemAgents.device_package. cbn. rewrite Hname. cbn.
  rewrite Hversion. reflexivity.
Qed.

(** C8.  [get_packages] has no check for an absent body: when the body of
    the response is null the call raises (the subscript of [None] is a
    [TypeError]) and does not return the empty list; when the body holds
    items that each carry a name and a version, the call returns the
    packages with these names and versions, in order.  On the same null
    body ManagedDevices [get_all] returns the empty list. *)
Theorem get_packages_no_null_check :
  forall (T : Type) (R : Rest T) (st st' : T),
    (do_get "/api/packages" st = (Ok JNull, st') ->
     outcome (AosSystemAgents.get_packages st) = Err TypeError /\
     outcome (AosSystemAgents.get_packages st) <> Ok []) /\
    (forall body items packages,
        do_get "/api/packages" st = (Ok (JObj body), st') ->
        lookup "items" body = Some (JArr items) ->
        Forall2 describes_package items packages ->
        outcome (AosSystemAgents.get_packages st) = Ok packages) /\
    (do_get "/api/systems" st = (Ok JNull, st') ->
     outcome (AosManagedDevices.get_all st) = Ok []).
Proof.
  intros T R st st'. split; [|split].
  - intros Hget. unfold AosSystemAgents.get_packages. step_get Hget.
    split; [reflexivity|discriminate].
  - intros body items packages Hget Hitems Hall.
    unfold AosSystemAgents.get_packages. step_get Hget.
    unfold bind, lift. cbn. rewrite Hitems. cbn.
    erewrite comprehension_all; [reflexivity|].
    eapply Forall2_impl; [|exact Hall]. apply device_package_described.
  - intros Hget. unfold AosManagedDevices.get_all. step_get Hget. reflexivity.
Qed.

Lemma get_packages_no_null_check_witness :
  outcome (AosSystemAgents.get_packages [Ok JNull]) = Err TypeError /\
  outcome (AosSystemAgents.get_packages
             [Ok (JObj [("items",
                         JArr [JObj [("name", JStr "eos"); ("version", JStr "4.24")]])])])
  = Ok [DevicePackage.mk (JStr "eos") (JStr "4.24")] /\
  outcome (AosManagedDevices.get_all [Ok JNull]) = Ok [].
Proof.
  split; [|split].
  - apply (proj1 (get_packages_no_null_check _ Scripted [Ok JNull] [])). reflexivity.
  - eapply (proj1 (proj2 (get_packages_no_null_check _ Scripted _ []))).
    + reflexivity.
    + reflexivity.
    + constructor; [|constructor]. eexists. cbn. repeat split.
  - apply (proj2 (proj2 (get_packages_no_null_check _ Scripted [Ok JNull] []))).
    reflexivity.
Defined.

Lemma device_os_image_described :
  forall item img,
    describes_os_image item img -> AosSystemAgents.device_os_image item = Ok img.
Proof.
  intros item img (fields & -> & H1 & H2 & H3 & H4 & H5 & H6 & H7).
  destruct img. simpl in *.
  unfold AosSystemAgents.device_os_image. cbn.
  rewrite H1; cbn. rewrite H2; cbn. rewrite H3; cbn. rewrite H4; cbn.
  rewrite H5; cbn. rewrite H6; cbn. rewrite H7; cbn. reflexivity.
Qed.

Lemma device_os_image_missing_key :
  forall fields k,
    In k os_image_keys -> lookup k fields = None ->
    exists e, AosSystemAgents.device_os_image (JObj fields) = Err e.
Proof.
  intros fields k Hk Hnone.
  unfold AosSystemAgents.device_os_image, subscript, rbind.
  destruct (lookup "description" fields) eqn:H1; [|eauto].
  destruct (lookup "checksum" fields) eqn:H2; [|eauto].
  destruct (lookup "image_name" fields) eqn:H3; [|eauto].
  destruct (lookup "platform" fields) eqn:H4; [|eauto].
  destruct (lookup "image_url" fields) eqn:H5; [|eauto].
  destruct (lookup "type" fields) eqn:H6; [|eauto].
  destruct (lookup "id" fields) eqn:H7; [|eauto].
  exfalso. simpl in Hk. intuition (subst; congruence).
Qed.

(** C9.  [get_os_images] maps the items of the response, in order, to
    records of the seven fields description, checksum, image_name,
    platform, image_url, type and id, and requires all of them: when every
    item carries the seven keys the call returns the records, and when some
    item lacks one of the seven keys the call raises; it never returns a
    record with a null in the place of the missing field. *)
Theorem get_os_images_requires_all_fields :
  forall (T : Type) (R : Rest T) (st st' : T) body items,
    do_get "/api/device-os/images" st = (Ok (JObj body), st') ->
    lookup "items" body = Some (JArr items) ->
    (forall images,
        Forall2 describes_os_image items images ->
        outcome (AosSystemAgents.get_os_images st) = Ok images) /\
    (forall fields k,
        In (JObj fields) items ->
        In k os_image_keys ->
        lookup k fields = None ->
        exists e, outcome (AosSystemAgents.get_os_images st) = Err e).
Proof.
  intros T R st st' body items Hget Hitems.
  assert (Hrun : outcome (AosSystemAgents.get_os_images st)
                 = comprehension AosSystemAgents.device_os_image items).
  { unfold AosSystemAgents.get_os_images. step_get Hget.
    unfold bind, lift. cbn. rewrite Hitems. reflexivity. }
  rewrite Hrun. split.
  - intros images Hall. apply comprehension_all.
    eapply Forall2_impl; [|exact Hall]. apply device_os_image_described.
  - intros fields k Hin Hk Hnone.
    apply comprehension_raises with (x := JObj fields); [exact Hin|].
    apply device_os_image_missing_key with (k := k); assumption.
Qed.

Lemma get_os_images_requires_all_fields_witness :
  outcome (AosSystemAgents.get_os_images
             [Ok (JObj [("items", JArr [example_image])])])
  = Ok [example_os_image] /\
  exists e,
    outcome (AosSystemAgents.get_os_images
               [Ok (JObj [("items", JArr [example_image; example_image_without_id])])])
    = Err e.
Proof.
  split.
  - eapply (proj1 (get_os_images_requires_all_fields _ Scripted
                     [Ok (JObj [("items", JArr [example_image])])] [] _ _
                     eq_refl eq_refl)).
    constructor; [|constructor]. eexists. cbn. repeat split.
  - eapply (proj2 (get_os_images_requires_all_fields _ Scripted
                     [Ok (JObj [("items", JArr [example_image; example_image_without_id])])]
                     [] _ _ eq_refl eq_refl))
      with (k := "id").
    + right. left. reflexivity.
    + cbn. tauto.
    + reflexivity.
Defined.

(** ** ManagedDevices: anomalies *)

Lemma eq_str_true :
  forall v s, eq_str v s = true <-> v = JStr s.
Proof.
  intros v s. destruct v; simpl; try (split; [discriminate|congruence]).
  rewrite String.eqb_eq. split; congruence.
Qed.

Lemma list_of_all :
  forall (A : Type) (gen : list (result A)) (l : list A),
    AosManagedDevices.list_of gen = Ok l -> gen = map Ok l.
Proof.
  intros A gen. unfold AosManagedDevices.list_of.
  induction gen as [|r tl IH]; intros l Hl; simpl in Hl.
  - injection Hl as <-. reflexivity.
  - destruct r as [a|e]; simpl in Hl; [|discriminate].
    destruct (comprehension (fun r => r) tl) as [l'|e]; simpl in Hl; [|discriminate].
    injection Hl as <-. simpl. f_equal. apply IH. reflexivity.
Qed.

Lemma scan_for_type_all :
  forall (l : list Anomaly.t) (t : string),
    AosManagedDevices.scan_for_type (map Ok l) t
    = Ok (existsb (fun a => eq_str (Anomaly.type a) t) l).
Proof.
  intros l t. induction l as [|a tl IH]; simpl.
  - reflexivity.
  - destruct (eq_str (Anomaly.type a) t); [reflexivity|exact IH].
Qed.

Section Anomalies.
Context {T : Type} `{Rest T}.

Lemma iter_anomalies_trace :
  forall id st,
    trace (AosManagedDevices._iter_anomalies id st)
    = [Get ("api/systems/" ++ id ++ "/anomalies")].
Proof.
  intros id st. unfold AosManagedDevices._iter_anomalies, bind, json_resp_get.
  destruct (do_get _ st) as [[v|e] st1]; [|reflexivity].
  destruct (is_None v); [reflexivity|].
  unfold lift. destruct (subscript v "items") as [items|e]; [|reflexivity].
  destruct (iter items); reflexivity.
Qed.

(** A consumer of the generator does the request of the generator and
    nothing else. *)
Lemma consume_trace :
  forall (A : Type) (k : list (result Anomaly.t) -> result A) id st,
    trace (bind (AosManagedDevices._iter_anomalies id) (fun gen => lift (k gen)) st)
    = [Get ("api/systems/" ++ id ++ "/anomalies")].
Proof.
  intros A k id st. pose proof (iter_anomalies_trace id st) as Htr.
  unfold bind, lift.
  destruct (AosManagedDevices._iter_anomalies id st) as [[[gen|e] st1] tr];
    simpl in *; rewrite Htr; reflexivity.
Qed.

End Anomalies.

(** C3.  For every agent id and every list of anomalies that
    [get_anomalies(id)] returns on a response, [has_anomalies(id)] on that
    response returns a boolean that is true exactly when the list is not
    empty, and [has_anomalies_of_type(id, t)] returns a boolean that is
    true exactly when some anomaly of the list has type [t]: the scan that
    stops at the first match returns what the check over the whole list,
    taken in the order of the list, returns, after the same single request
    and leaving the transport in the same state. *)
Theorem anomaly_checks_agree_with_list :
  forall (T : Type) (R : Rest T) (st : T) (id t : string) (l : list Anomaly.t),
    outcome (AosManagedDevices.get_anomalies id st) = Ok l ->
    (exists b,
        outcome (AosManagedDevices.has_anomalies id st) = Ok b /\
        (b = true <-> l <> [])) /\
    (exists b,
        outcome (AosManagedDevices.has_anomalies_of_type id t st) = Ok b /\
        (b = true <-> exists a, In a l /\ Anomaly.type a = JStr t)) /\
    outcome (AosManagedDevices.has_anomalies_of_type id t st)
    = Ok (existsb (fun a => eq_str (Anomaly.type a) t) l) /\
    trace (AosManagedDevices.has_anomalies_of_type id t st)
    = trace (AosManagedDevices.get_anomalies id st) /\
    final (AosManagedDevices.has_anomalies_of_type id t st)
    = final (AosManagedDevices.get_anomalies id st).
Proof.
  intros T R st id t l Hlist.
  assert (Hscan : outcome (AosManagedDevices.has_anomalies_of_type id t st)
                  = Ok (existsb (fun a => eq_str (Anomaly.type a) t) l)).
  { revert Hlist.
    unfold AosManagedDevices.has_anomalies_of_type, AosManagedDevices.get_anomalies,
      bind, lift, outcome.
    destruct (AosManagedDevices._iter_anomalies id st) as [[[gen|e] st1] tr];
      simpl; [|discriminate].
    intros Hl. rewrite (list_of_all _ _ _ Hl). apply scan_for_type_all. }
  split; [|split; [|split; [|split]]].
  - exists (match l with [] => false | _ => true end). split.
    + revert Hlist. unfold AosManagedDevices.has_anomalies, bind, ret, outcome.
      destruct (AosManagedDevices.get_anomalies id st) as [[[l'|e] st1] tr];
        simpl; [|discriminate].
      intros [= ->]. reflexivity.
    + destruct l; split; congruence.
  - eexists. split; [exact Hscan|].
    rewrite existsb_exists. split; intros (a & Hin & Ha); exists a; split;
      try assumption; apply eq_str_true; assumption.
  - exact Hscan.
  - unfold AosManagedDevices.has_anomalies_of_type, AosManagedDevices.get_anomalies.
    now rewrite !consume_trace.
  - unfold AosManagedDevices.has_anomalies_of_type, AosManagedDevices.get_anomalies,
      bind, lift, final.
    destruct (AosManagedDevices._iter_anomalies id st) as [[[gen|e] st1] tr];
      reflexivity.
Qed.

Lemma anomaly_checks_agree_with_list_witness :
  outcome (AosManagedDevices.has_anomalies "s1" [Ok example_two_anomalies]) = Ok true /\
  outcome (AosManagedDevices.has_anomalies_of_type "s1" "route"
             [Ok example_two_anomalies]) = Ok true /\
  outcome (AosManagedDevices.has_anomalies_of_type "s1" "ospf"
             [Ok example_two_anomalies]) = Ok false /\
  trace (AosManagedDevices.has_anomalies_of_type "s1" "route"
           [Ok example_two_anomalies])
  = trace (AosManagedDevices.get_anomalies "s1" [Ok example_two_anomalies]).
Proof.
  destruct (anomaly_checks_agree_with_list _ Scripted [Ok example_two_anomalies]
              "s1" "route" [example_anomaly_record; example_route_record] eq_refl)
    as ((b & Hb & Hnonempty) & _ & Hroute & Htrace & _).
  destruct (anomaly_checks_agree_with_list _ Scripted [Ok example_two_anomalies]
              "s1" "ospf" [example_anomaly_record; example_route_record] eq_refl)
    as (_ & _ & Hospf & _).
  split; [|split; [|split]].
  - rewrite Hb. f_equal. apply Hnonempty. discriminate.
  - exact Hroute.
  - exact Hospf.
  - exact Htrace.
Defined.

(** C7.  The three anomaly operations issue one GET, to the path
    [api/systems/{id}/anomalies]: the path of the interface table,
    [/api/systems/{id}/anomalies], without its leading slash. *)
Theorem anomalies_path_lacks_leading_slash :
  forall (T : Type) (R : Rest T) (st : T) (id t : string),
    trace (AosManagedDevices.get_anomalies id st)
    = [Get ("api/systems/" ++ id ++ "/anomalies")] /\
    trace (AosManagedDevices.has_anomalies id st)
    = [Get ("api/systems/" ++ id ++ "/anomalies")] /\
    trace (AosManagedDevices.has_anomalies_of_type id t st)
    = [Get ("api/systems/" ++ id ++ "/anomalies")] /\
    ("api/systems/" ++ id ++ "/anomalies" <> "/api/systems/" ++ id ++ "/anomalies")%string.
Proof.
  intros T R st id t. split; [|split; [|split]].
  - apply consume_trace.
  - unfold AosManagedDevices.has_anomalies.
    pose proof (consume_trace _ AosManagedDevices.list_of id st) as Htr.
    fold (AosManagedDevices.get_anomalies id) in Htr.
    unfold bind, ret.
    destruct (AosManagedDevices.get_anomalies id st) as [[[l|e] st1] tr];
      simpl in *; rewrite Htr; reflexivity.
  - apply consume_trace.
  - simpl. discriminate.
Qed.

(** ** DeviceProfiles: lookup by name or id *)

Lemma given_name :
  forall name, name <> "" -> AosDeviceProfiles.given (Some name) = Some name.
Proof.
  intros name Hname. unfold AosDeviceProfiles.given.
  destruct (String.eqb_spec name ""); [contradiction|reflexivity].
Qed.

Lemma scan_display_name_find :
  forall profiles name,
    Forall is_object profiles ->
    AosDeviceProfiles.scan_display_name profiles name
    = Ok (find (has_display_name name) profiles).
Proof.
  intros profiles name Hobj. induction Hobj as [|dp tl [fields ->] _ IH]; simpl.
  - reflexivity.
  - unfold get. simpl.
    destruct (lookup "display_name" fields) as [v|]; simpl.
    + destruct (eq_str v name); [reflexivity|exact IH].
    + exact IH.
Qed.

(** C1, as the code has it.  When a non-empty name is given, with or
    without an id, and the collection that [get_all()] returns is a
    non-empty list of objects, [get_device_profile] returns the first
    object of the list whose [display_name] equals the name; when no object
    of the list has that [display_name] it raises the [AosAPIError]
    "External Router <name> not found".  In both cases the only request is
    the GET of the collection: the GET by id is not issued. *)
Theorem get_device_profile_by_name :
  forall (T : Type) (R : Rest T) (st st' : T) (dp_id : option string)
         (name : string) (profiles : list json),
    name <> "" ->
    profiles <> [] ->
    Forall is_object profiles ->
    do_get "/api/device-profiles" st = (Ok (JArr profiles), st') ->
    outcome (AosDeviceProfiles.get_device_profile dp_id (Some name) st)
    = match find (has_display_name name) profiles with
      | Some dp => Ok dp
      | None => Err (not_found name)
      end /\
    trace (AosDeviceProfiles.get_device_profile dp_id (Some name) st)
    = [Get "/api/device-profiles"].
Proof.
  intros T R st st' dp_id name profiles Hname Hne Hobj Hget.
  unfold AosDeviceProfiles.get_device_profile. rewrite (given_name _ Hname).
  unfold AosDeviceProfiles.get_all. step_get Hget.
  destruct profiles as [|dp tl]; [contradiction|].
  unfold bind, lift. cbn [iter].
  rewrite (scan_display_name_find _ name Hobj).
  destruct (find (has_display_name name) (dp :: tl)); split; reflexivity.
Qed.

Lemma get_device_profile_by_name_witness :
  outcome (AosDeviceProfiles.get_device_profile (Some "dp9") (Some "X")
             [Ok (JArr [example_profile "dp1" "Y"; example_profile "dp2" "X";
                        example_profile "dp3" "X"])])
  = Ok (example_profile "dp2" "X") /\
  outcome (AosDeviceProfiles.get_device_profile (Some "dp9") (Some "X")
             [Ok (JArr [example_profile "dp1" "Y"])])
  = Err (AosAPIError "External Router X not found").
Proof.
  split.
  - refine (proj1 (get_device_profile_by_name _ Scripted
                     [Ok (JArr [example_profile "dp1" "Y"; example_profile "dp2" "X";
                                example_profile "dp3" "X"])]
                     [] (Some "dp9") "X" _ _ _ _ eq_refl)).
    + discriminate.
    + discriminate.
    + repeat constructor; eexists; reflexivity.
  - refine (proj1 (get_device_profile_by_name _ Scripted
                     [Ok (JArr [example_profile "dp1" "Y"])]
                     [] (Some "dp9") "X" _ _ _ _ eq_refl)).
    + discriminate.
    + discriminate.
    + repeat constructor; eexists; reflexivity.
Defined.

(** C1, as stated, fails on the empty collection.  No profile of the empty
    list is named "X", yet the lookup of "X" raises nothing: it goes on to
    the GET by id and returns what that request answers, here a profile
    named "Y". *)
Lemma lookup_by_name_in_empty_collection :
  outcome (AosDeviceProfiles.get_device_profile (Some "dp9") (Some "X")
             [Ok (JArr []); Ok (example_profile "dp9" "Y")])
  = Ok (example_profile "dp9" "Y") /\
  trace (AosDeviceProfiles.get_device_profile (Some "dp9") (Some "X")
           [Ok (JArr []); Ok (example_profile "dp9" "Y")])
  = [Get "/api/device-profiles"; Get "/api/device-profiles/dp9"] /\
  find (has_display_name "X") [] = None /\
  outcome (AosDeviceProfiles.get_device_profile (Some "dp9") (Some "X")
             [Ok (JArr []); Ok (example_profile "dp9" "Y")])
  <> Err (not_found "X").
Proof.
  repeat split. discriminate.
Qed.

(** C10.  When [get_device_profile] is called with a non-empty name and
    [get_all()] returns a falsy body (null, an empty list or an empty
    object), the method raises nothing of its own: after the GET of the
    collection it issues the GET of [/api/device-profiles/{dp_id}] and
    returns what that request answers or raises.  With no id the path is
    [/api/device-profiles/None]. *)
Theorem get_device_profile_falls_through :
  forall (T : Type) (R : Rest T) (st st' : T) (dp_id : option string)
         (name : string) (dev_profs : json),
    name <> "" ->
    do_get "/api/device-profiles" st = (Ok dev_profs, st') ->
    dev_profs = JNull \/ dev_profs = JArr [] \/ dev_profs = JObj [] ->
    AosDeviceProfiles.get_device_profile dp_id (Some name) st
    = (fst (do_get ("/api/device-profiles/" ++ format dp_id) st'),
       snd (do_get ("/api/device-profiles/" ++ format dp_id) st'),
       [Get "/api/device-profiles"; Get ("/api/device-profiles/" ++ format dp_id)]) /\
    (dp_id = None ->
     ("/api/device-profiles/" ++ format dp_id)%string = "/api/device-profiles/None").
Proof.
  intros T R st st' dp_id name dev_profs Hname Hget Hfalsy.
  split; [|intros ->; reflexivity].
  assert (Htruthy : truthy dev_profs = false)
    by (destruct Hfalsy as [->|[->| ->]]; reflexivity).
  unfold AosDeviceProfiles.get_device_profile. rewrite (given_name _ Hname).
  unfold AosDeviceProfiles.get_all.
  erewrite bind_ok by (apply get_answer; exact Hget). rewrite Htruthy.
  unfold json_resp_get, outcome, final, trace.
  destruct (do_get _ st') as [r st2]. reflexivity.
Qed.

Lemma get_device_profile_falls_through_witness :
  AosDeviceProfiles.get_device_profile None (Some "X")
    [Ok JNull; Ok (example_profile "None" "Y")]
  = (Ok (example_profile "None" "Y"), [],
     [Get "/api/device-profiles"; Get "/api/device-profiles/None"]).
Proof.
  refine (proj1 (get_device_profile_falls_through _ Scripted
                   [Ok JNull; Ok (example_profile "None" "Y")]
                   [Ok (example_profile "None" "Y")] None "X" JNull _ eq_refl _)).
  - discriminate.
  - left. reflexivity.
Defined.

(** ** DeviceProfiles: batched creation *)

Section Batches.
Context {T : Type} `{Rest T}.

Lemma post_answers_length :
  forall uri payloads st, length (post_answers uri payloads st) = length payloads.
Proof.
  intros uri payloads. induction payloads as [|p tl IH]; intros st; simpl.
  - reflexivity.
  - destruct (do_post uri (Some p) st) as [r st1]. simpl. now rewrite IH.
Qed.

Lemma bind_silent :
  forall (A B : Type) (m : M T A) (f : A -> M T B) st a st1,
    m st = (Ok a, st1, []) -> bind m f st = f a st1.
Proof.
  intros A B m f st a st1 Hm. unfold bind. rewrite Hm.
  destruct (f a st1) as [[r st2] tr2]. reflexivity.
Qed.

Lemma pause_step :
  forall (A : Type) (k : nat) (m : M T A) st r st2 tr2,
    m st = (r, st2, tr2) ->
    bind (if Nat.eqb (k mod 30) 0 then sleep 3 else ret tt) (fun _ => m) st
    = (r, st2, pause_after k ++ tr2).
Proof.
  intros A k m st r st2 tr2 Hm. unfold pause_after, bind, sleep, ret.
  destruct (Nat.eqb (k mod 30) 0); rewrite Hm; reflexivity.
Qed.

Lemma falsy_creates_nothing :
  forall v, truthy v = false -> created (Ok v) = [].
Proof.
  intros v Hv. destruct v as [| | | | |fields]; try reflexivity.
  destruct fields; [reflexivity|discriminate].
Qed.

(** The loop, entered after [i] submissions with the ids [ids]. *)
Lemma add_loop_run :
  forall todo i ids st,
    Forall acceptable (post_answers "/api/device-profiles" todo st) ->
    exists st',
      AosDeviceProfiles.add_loop todo i ids st
      = (Ok (ids ++ flat_map created (post_answers "/api/device-profiles" todo st)),
         st',
         flat_map submission (combine (seq (S i) (length todo)) todo)).
Proof.
  induction todo as [|p tl IH]; intros i ids st Hacc.
  - exists st. simpl. rewrite app_nil_r. reflexivity.
  - cbn [AosDeviceProfiles.add_loop post_answers] in *.
    unfold bind at 1. unfold json_resp_post.
    destruct (do_post "/api/device-profiles" (Some p) st) as [r st1].
    inversion Hacc as [|r' rs (v & -> & Hv) Hrest]; subst.
    rewrite Nat.add_1_r.
    destruct Hv as [Hfalsy|(fields & j & -> & Hid)].
    + destruct (IH (S i) ids st1 Hrest) as [st' Htl].
      rewrite Hfalsy. rewrite (bind_silent _ _ _ _ st1 ids st1 eq_refl).
      rewrite (pause_step _ (S i) _ _ _ _ _ Htl).
      exists st'. cbn [flat_map]. rewrite (falsy_creates_nothing _ Hfalsy).
      reflexivity.
    + destruct (IH (S i) (ids ++ [j]) st1 Hrest) as [st' Htl].
      assert (Htruthy : truthy (JObj fields) = true)
        by (destruct fields; [discriminate|reflexivity]).
      rewrite Htruthy.
      rewrite (bind_silent _ _ _ _ st1 (ids ++ [j]) st1).
      * rewrite (pause_step _ (S i) _ _ _ _ _ Htl).
        exists st'. cbn [flat_map created]. rewrite Hid, <- !app_assoc.
        reflexivity.
      * unfold bind, lift, ret, subscript. rewrite Hid. reflexivity.
Qed.

End Batches.

Lemma answers_id_acceptable :
  forall answers ids,
    Forall2 answers_id answers ids ->
    Forall acceptable answers /\ flat_map created answers = ids.
Proof.
  intros answers ids Hall.
  induction Hall as [|r i rs is_ (fields & -> & Hid) _ [IHacc IHids]].
  - split; [constructor|reflexivity].
  - split.
    + constructor; [|exact IHacc]. exists (JObj fields).
      split; [reflexivity|]. right. exists fields, i. split; [reflexivity|exact Hid].
    + simpl. rewrite Hid, IHids. reflexivity.
Qed.

Lemma posts_of_submissions :
  forall (l : list json) (k : nat),
    filter is_post (flat_map submission (combine (seq k (length l)) l))
    = map post_of l.
Proof.
  induction l as [|p tl IH]; intros k; simpl.
  - reflexivity.
  - rewrite filter_app, IH. unfold pause_after.
    destruct (Nat.eqb (k mod 30) 0); reflexivity.
Qed.

Lemma created_or_skipped :
  forall answers,
    Forall acceptable answers ->
    length (flat_map created answers) + length (filter skipped answers)
    = length answers /\
    (length (flat_map created answers) < length answers <->
     exists r, In r answers /\ skipped r = true).
Proof.
  intros answers Hacc.
  induction Hacc as [|r rs (v & -> & Hv) _ [IHlen IHiff]].
  - simpl. split; [reflexivity|]. split; [lia|intros (r & [] & _)].
  - assert (Hone : length (created (Ok v)) = 1 /\ skipped (Ok v) = false \/
                   length (created (Ok v)) = 0 /\ skipped (Ok v) = true).
    { destruct Hv as [Hfalsy|(fields & i & -> & Hid)].
      - right. rewrite (falsy_creates_nothing _ Hfalsy). simpl.
        rewrite Hfalsy. split; reflexivity.
      - left. simpl. rewrite Hid. destruct fields; [discriminate|].
        split; reflexivity. }
    cbn [flat_map filter]. rewrite length_app.
    destruct Hone as [[Hc Hs]|[Hc Hs]]; rewrite Hc, Hs; cbn [length]; split.
    + lia.
    + split.
      * intros Hlt. destruct (proj1 IHiff) as (r & Hin & Hr); [lia|].
        exists r. split; [right; exact Hin|exact Hr].
      * intros (r & [<-|Hin] & Hr); [congruence|].
        assert (length (flat_map created rs) < length rs)
          by (apply IHiff; eauto).
        lia.
    + lia.
    + split; [|lia]. intros _. exists (Ok v). split; [left; reflexivity|exact Hs].
Qed.

(** C2.  When every POST of a batch answers an object that carries an id,
    [add_device_profiles] returns the ids in the order of submission, and
    what it does is, for each payload in order, the POST of the payload,
    followed by a pause of 3 exactly when the 1-based position of the
    payload is a multiple of 30.  For a batch of 31 payloads the result
    holds 31 ids and the only pause comes between the POST of the 30th
    payload and the POST of the 31st. *)
Theorem add_device_profiles_throttled :
  forall (T : Type) (R : Rest T) (st : T) (dp_list ids : list json),
    Forall2 answers_id (post_answers "/api/device-profiles" dp_list st) ids ->
    outcome (AosDeviceProfiles.add_device_profiles dp_list st) = Ok ids /\
    trace (AosDeviceProfiles.add_device_profiles dp_list st)
    = flat_map submission (numbered dp_list) /\
    (length dp_list = 31 ->
     length ids = 31 /\
     trace (AosDeviceProfiles.add_device_profiles dp_list st)
     = map post_of (firstn 30 dp_list) ++ Sleep 3 :: map post_of (skipn 30 dp_list) /\
     length (filter is_sleep (trace (AosDeviceProfiles.add_device_profiles dp_list st)))
     = 1).
Proof.
  intros T R st dp_list ids Hids.
  destruct (answers_id_acceptable _ _ Hids) as [Hacc Hcreated].
  destruct (add_loop_run dp_list 0 [] st Hacc) as [st' Hrun].
  unfold AosDeviceProfiles.add_device_profiles. rewrite Hrun, Hcreated.
  unfold outcome, trace, numbered. cbn [fst snd app].
  split; [reflexivity|]. split; [reflexivity|].
  intros Hlen. split.
  - rewrite <- (Forall2_length Hids), post_answers_length. exact Hlen.
  - clear Hrun Hacc Hids Hcreated.
    do 31 (destruct dp_list as [|? dp_list]; [discriminate Hlen|]).
    destruct dp_list; [|discriminate Hlen].
    split; reflexivity.
Qed.

Lemma add_device_profiles_throttled_witness :
  outcome (AosDeviceProfiles.add_device_profiles example_batch 100%Z) = Ok example_ids /\
  trace (AosDeviceProfiles.add_device_profiles example_batch 100%Z)
  = map post_of (firstn 30 example_batch) ++ Sleep 3 :: map post_of (skipn 30 example_batch).
Proof.
  assert (Hids : Forall2 answers_id
                   (post_answers "/api/device-profiles" example_batch 100%Z)
                   example_ids).
  { cbv [example_batch example_ids post_answers map seq do_post Counting].
    repeat (constructor; [eexists; split; reflexivity|]). constructor. }
  destruct (add_device_profiles_throttled _ Counting 100%Z example_batch example_ids Hids)
    as (Hout & _ & Hlen).
  split; [exact Hout|]. exact (proj1 (proj2 (Hlen eq_refl))).
Defined.

(** C5.  When every POST of a batch answers either a falsy body (a null
    body in particular) or an object that carries an id, a falsy answer
    contributes no id and raises nothing, every payload of the batch is
    POSTed once, in order, whatever the answers before it, and the result
    is the ids of the other answers in the order of submission: it is
    shorter than the batch by the number of falsy answers, hence shorter
    exactly when some answer was falsy. *)
Theorem add_device_profiles_skips_empty_answers :
  forall (T : Type) (R : Rest T) (st : T) (dp_list : list json),
    Forall acceptable (post_answers "/api/device-profiles" dp_list st) ->
    created (Ok JNull) = [] /\
    skipped (Ok JNull) = true /\
    outcome (AosDeviceProfiles.add_device_profiles dp_list st)
    = Ok (flat_map created (post_answers "/api/device-profiles" dp_list st)) /\
    filter is_post (trace (AosDeviceProfiles.add_device_profiles dp_list st))
    = map post_of dp_list /\
    length (flat_map created (post_answers "/api/device-profiles" dp_list st))
    + length (filter skipped (post_answers "/api/device-profiles" dp_list st))
    = length dp_list /\
    (length (flat_map created (post_answers "/api/device-profiles" dp_list st))
     < length dp_list <->
     exists r,
       In r (post_answers "/api/device-profiles" dp_list st) /\ skipped r = true).
Proof.
  intros T R st dp_list Hacc.
  destruct (add_loop_run dp_list 0 [] st Hacc) as [st' Hrun].
  destruct (created_or_skipped _ Hacc) as [Hlen Hiff].
  rewrite post_answers_length in Hlen, Hiff.
  unfold AosDeviceProfiles.add_device_profiles. rewrite Hrun.
  unfold outcome, trace. cbn [fst snd app].
  repeat split; try assumption; try apply Hiff.
  apply posts_of_submissions.
Qed.

Lemma add_device_profiles_skips_empty_answers_witness :
  outcome (AosDeviceProfiles.add_device_profiles
             [JStr "p1"; JStr "p2"; JStr "p3"]
             [Ok (JObj [("id", JStr "dp1")]); Ok JNull; Ok (JObj [("id", JStr "dp3")])])
  = Ok [JStr "dp1"; JStr "dp3"] /\
  filter is_post
    (trace (AosDeviceProfiles.add_device_profiles
              [JStr "p1"; JStr "p2"; JStr "p3"]
              [Ok (JObj [("id", JStr "dp1")]); Ok JNull; Ok (JObj [("id", JStr "dp3")])]))
  = [post_of (JStr "p1"); post_of (JStr "p2"); post_of (JStr "p3")].
Proof.
  assert (Hacc : Forall acceptable
                   (post_answers "/api/device-profiles"
                      [JStr "p1"; JStr "p2"; JStr "p3"]
                      [Ok (JObj [("id", JStr "dp1")]); Ok JNull;
                       Ok (JObj [("id", JStr "dp3")])])).
  { cbn. repeat constructor.
    - eexists. split; [reflexivity|]. right. do 2 eexists. split; reflexivity.
    - eexists. split; [reflexivity|]. left. reflexivity.
    - eexists. split; [reflexivity|]. right. do 2 eexists. split; reflexivity. }
  destruct (add_device_profiles_skips_empty_answers _ Scripted _ _ Hacc)
    as (_ & _ & Hout & Hposts & _).
  split; [exact Hout|exact Hposts].
Defined.

(** ** DeviceProfiles: batched deletion *)

Section Deletion.
Context {T : Type} `{Rest T}.

Lemma delete_loop_run :
  forall dp_list ids st,
    match first_raised (delete_answers "/api/device-profiles" dp_list st) with
    | None =>
        exists st',
          AosDeviceProfiles.delete_loop dp_list ids st
          = (Ok (ids ++ dp_list), st', map delete_of dp_list)
    | Some e =>
        exists st' tr,
          AosDeviceProfiles.delete_loop dp_list ids st = (Err e, st', tr)
    end.
Proof.
  induction dp_list as [|dp_id tl IH]; intros ids st.
  - simpl. exists st. rewrite app_nil_r. reflexivity.
  - cbn [AosDeviceProfiles.delete_loop delete_answers].
    unfold bind, json_resp_delete.
    destruct (do_delete ("/api/device-profiles" ++ "/" ++ dp_id) st) as [[v|e] st1];
      cbn [first_raised]; cbv beta.
    + specialize (IH (ids ++ [dp_id]) st1).
      destruct (first_raised (delete_answers "/api/device-profiles" tl st1)) as [e|].
      * destruct IH as (st' & tr & Hrun). rewrite Hrun. eauto.
      * destruct IH as (st' & Hrun). rewrite Hrun, <- app_assoc. eauto.
    + eauto.
Qed.

Lemma delete_loop_stops :
  forall before dp_id after e ids st,
    (forall r,
        In r (firstn (length before)
                (delete_answers "/api/device-profiles" (before ++ dp_id :: after) st)) ->
        exists v, r = Ok v) ->
    nth_error (delete_answers "/api/device-profiles" (before ++ dp_id :: after) st)
      (length before) = Some (Err e) ->
    exists st',
      AosDeviceProfiles.delete_loop (before ++ dp_id :: after) ids st
      = (Err e, st', map delete_of (before ++ [dp_id])).
Proof.
  induction before as [|b before IH]; intros dp_id after e ids st Hok Hnth.
  - cbn [app length AosDeviceProfiles.delete_loop delete_answers] in *.
    unfold bind, json_resp_delete.
    destruct (do_delete ("/api/device-profiles" ++ "/" ++ dp_id) st) as [r0 st1].
    simpl in Hnth. injection Hnth as ->. exists st1. reflexivity.
  - cbn [app length AosDeviceProfiles.delete_loop delete_answers] in *.
    unfold bind, json_resp_delete.
    destruct (do_delete ("/api/device-profiles" ++ "/" ++ b) st) as [r0 st1].
    cbn [firstn nth_error] in Hok, Hnth.
    destruct (Hok r0) as [v ->]; [left; reflexivity|].
    destruct (IH dp_id after e (ids ++ [b]) st1) as (st' & Hrun).
    + intros r Hr. apply Hok. right. exact Hr.
    + exact Hnth.
    + cbv beta. rewrite Hrun. exists st'. reflexivity.
Qed.

End Deletion.

Lemma none_raised :
  forall answers,
    (forall r, In r answers -> exists v, r = Ok v) <-> first_raised answers = None.
Proof.
  induction answers as [|r tl IH]; simpl.
  - split; [reflexivity|intros _ r []].
  - destruct r as [v|e].
    + rewrite <- IH. split.
      * intros Hall r Hr. apply Hall. right. exact Hr.
      * intros Hall r [<-|Hr]; [eauto|apply Hall, Hr].
    + split; [|discriminate]. intros Hall.
      destruct (Hall (Err e)) as [v Hv]; [left; reflexivity|discriminate].
Qed.

(** C6, as the code has it.  [delete_device_profiles] issues one DELETE
    per id in the order of the input and looks at no answer: when no
    DELETE raises, whatever each returns, the result is the input list
    itself.  When a DELETE raises, the exception of the first one that
    does reaches the caller and no list is returned; the requests made are
    the DELETEs of the ids up to and including that one, so the ids after
    it are not deleted. *)
Theorem delete_device_profiles_returns_input :
  forall (T : Type) (R : Rest T) (st : T) (dp_list : list string),
    ((forall r, In r (delete_answers "/api/device-profiles" dp_list st) ->
                exists v, r = Ok v) ->
     outcome (AosDeviceProfiles.delete_device_profiles dp_list st) = Ok dp_list /\
     trace (AosDeviceProfiles.delete_device_profiles dp_list st)
     = map delete_of dp_list) /\
    (forall e,
        first_raised (delete_answers "/api/device-profiles" dp_list st) = Some e ->
        outcome (AosDeviceProfiles.delete_device_profiles dp_list st) = Err e) /\
    (forall before dp_id after e,
        dp_list = before ++ dp_id :: after ->
        (forall r,
            In r (firstn (length before)
                    (delete_answers "/api/device-profiles" dp_list st)) ->
            exists v, r = Ok v) ->
        nth_error (delete_answers "/api/device-profiles" dp_list st) (length before)
        = Some (Err e) ->
        outcome (AosDeviceProfiles.delete_device_profiles dp_list st) = Err e /\
        trace (AosDeviceProfiles.delete_device_profiles dp_list st)
        = map delete_of (before ++ [dp_id])).
Proof.
  intros T R st dp_list.
  pose proof (delete_loop_run dp_list [] st) as Hrun.
  unfold AosDeviceProfiles.delete_device_profiles. split; [|split].
  - intros Hall. apply none_raised in Hall. rewrite Hall in Hrun.
    destruct Hrun as (st' & ->). split; reflexivity.
  - intros e He. rewrite He in Hrun. destruct Hrun as (st' & tr & ->). reflexivity.
  - intros before dp_id after e -> Hok Hnth.
    destruct (delete_loop_stops before dp_id after e [] st Hok Hnth) as (st' & Hstop).
    rewrite Hstop. split; reflexivity.
Qed.

Lemma delete_device_profiles_returns_input_witness :
  outcome (AosDeviceProfiles.delete_device_profiles ["a"; "b"; "c"]
             [Ok JNull; Ok (JBool false); Ok (JObj [("errors", JStr "not found")])])
  = Ok ["a"; "b"; "c"] /\
  outcome (AosDeviceProfiles.delete_device_profiles ["a"; "b"; "c"]
             [Ok JNull; Err (AosAPIError "HTTP 404")])
  = Err (AosAPIError "HTTP 404") /\
  trace (AosDeviceProfiles.delete_device_profiles ["a"; "b"; "c"]
           [Ok JNull; Err (AosAPIError "HTTP 404")])
  = [delete_of "a"; delete_of "b"].
Proof.
  split; [|split].
  - apply (proj1 (delete_device_profiles_returns_input _ Scripted
                    [Ok JNull; Ok (JBool false); Ok (JObj [("errors", JStr "not found")])]
                    ["a"; "b"; "c"])).
    cbn. intros r [<-|[<-|[<-|[]]]]; eauto.
  - apply (proj1 (proj2 (delete_device_profiles_returns_input _ Scripted
                           [Ok JNull; Err (AosAPIError "HTTP 404")] ["a"; "b"; "c"]))).
    reflexivity.
  - refine (proj2 (proj2 (proj2 (delete_device_profiles_returns_input _ Scripted
                                   [Ok JNull; Err (AosAPIError "HTTP 404")]
                                   ["a"; "b"; "c"]))
                     ["a"] "b" ["c"] (AosAPIError "HTTP 404") eq_refl _ eq_refl)).
    cbn. intros r [<-|[]]. eauto.
Defined.

(** C6, as stated, fails when the transport raises.  For the input
    ["a", "b", "c"] and a transport that raises on the second DELETE, the
    call raises that exception: it returns no list, and the DELETE of "c"
    is never issued. *)
Lemma delete_raises_when_transport_raises :
  outcome (AosDeviceProfiles.delete_device_profiles ["a"; "b"; "c"]
             [Ok JNull; Err (AosAPIError "HTTP 404")])
  = Err (AosAPIError "HTTP 404") /\
  trace (AosDeviceProfiles.delete_device_profiles ["a"; "b"; "c"]
           [Ok JNull; Err (AosAPIError "HTTP 404")])
  = [delete_of "a"; delete_of "b"] /\
  outcome (AosDeviceProfiles.delete_device_profiles ["a"; "b"; "c"]
             [Ok JNull; Err (AosAPIError "HTTP 404")])
  <> Ok ["a"; "b"; "c"].
Proof.
  repeat split. discriminate.
Qed.

(** * Further properties of the module *)

Lemma comprehension_stops :
  forall (A B : Type) (f : A -> result B) before ys x e after,
    Forall2 (fun a y => f a = Ok y) before ys ->
    f x = Err e ->
    comprehension f (before ++ x :: after) = Err e.
Proof.
  intros A B f before ys x e after Hbefore Hx.
  induction Hbefore as [|a y before ys Hay _ IH]; simpl.
  - rewrite Hx. reflexivity.
  - rewrite Hay. simpl. rewrite IH. reflexivity.
Qed.

Lemma list_of_map :
  forall (A B : Type) (f : A -> result B) (l : list A),
    AosManagedDevices.list_of (map f l) = comprehension f l.
Proof.
  intros A B f l. unfold AosManagedDevices.list_of.
  induction l as [|x tl IH]; simpl; [reflexivity|].
  destruct (f x); simpl; [|reflexivity]. rewrite IH. reflexivity.
Qed.

Lemma anomaly_described :
  forall item a,
    describes_anomaly item a -> AosManagedDevices.anomaly item = Ok a.
Proof.
  intros item a (fields & t & i & s & -> & Ht & Hi & Hs & Hidentity & ->).
  unfold AosManagedDevices.anomaly, nested, get. simpl.
  rewrite Ht. simpl. rewrite Hi. simpl.
  destruct Hidentity as [Hnone|[identity Hsome]].
  - rewrite Hnone. simpl. rewrite Hs. reflexivity.
  - rewrite Hsome. simpl.
    destruct (lookup "system_id" identity); simpl; rewrite Hs; reflexivity.
Qed.

(** ** ManagedDevices: more on anomalies *)

Section AnomalyBodies.
Context {T : Type} `{Rest T}.

Lemma iter_anomalies_null :
  forall id st st',
    do_get (anomalies_uri id) st = (Ok JNull, st') ->
    AosManagedDevices._iter_anomalies id st = (Ok [], st', [Get (anomalies_uri id)]).
Proof.
  intros id st st' Hget. unfold AosManagedDevices._iter_anomalies.
  fold (anomalies_uri id).
  erewrite bind_ok by (apply get_answer; exact Hget). reflexivity.
Qed.

Lemma iter_anomalies_items :
  forall id st st' body items,
    do_get (anomalies_uri id) st = (Ok (JObj body), st') ->
    lookup "items" body = Some (JArr items) ->
    AosManagedDevices._iter_anomalies id st
    = (Ok (map AosManagedDevices.anomaly items), st', [Get (anomalies_uri id)]).
Proof.
  intros id st st' body items Hget Hitems. unfold AosManagedDevices._iter_anomalies.
  fold (anomalies_uri id).
  erewrite bind_ok by (apply get_answer; exact Hget).
  cbn [is_None]. unfold bind, lift, ret, subscript, outcome, final, trace.
  rewrite Hitems. reflexivity.
Qed.

(** What the three consumers return once the generator is known. *)
Lemma consumers_of :
  forall id t st gen st' tr,
    AosManagedDevices._iter_anomalies id st = (Ok gen, st', tr) ->
    outcome (AosManagedDevices.get_anomalies id st) = AosManagedDevices.list_of gen /\
    outcome (AosManagedDevices.has_anomalies id st)
    = rbind (AosManagedDevices.list_of gen)
        (fun l => Ok (match l with [] => false | _ => true end)) /\
    outcome (AosManagedDevices.has_anomalies_of_type id t st)
    = AosManagedDevices.scan_for_type gen t.
Proof.
  intros id t st gen st' tr Hgen.
  unfold AosManagedDevices.has_anomalies, AosManagedDevices.get_anomalies,
    AosManagedDevices.has_anomalies_of_type, bind, lift, ret, outcome.
  rewrite Hgen. simpl.
  destruct (AosManagedDevices.list_of gen); repeat split; reflexivity.
Qed.

End AnomalyBodies.

Lemma scan_stops_at_match :
  forall before records item a after t,
    Forall2 describes_anomaly before records ->
    Forall (fun b => Anomaly.type b <> JStr t) records ->
    describes_anomaly item a ->
    Anomaly.type a = JStr t ->
    AosManagedDevices.scan_for_type
      (map AosManagedDevices.anomaly (before ++ item :: after)) t
    = Ok true.
Proof.
  intros before records item a after t Hbefore Hother Hitem Htype.
  induction Hbefore as [|b r before records Hb _ IH]; simpl.
  - rewrite (anomaly_described _ _ Hitem).
    apply eq_str_true in Htype. rewrite Htype. reflexivity.
  - rewrite (anomaly_described _ _ Hb).
    inversion Hother as [|? ? Hr Hrest]; subst.
    destruct (eq_str (Anomaly.type r) t) eqn:Heq.
    + apply eq_str_true in Heq. contradiction.
    + apply IH. exact Hrest.
Qed.

(** X1.  On an empty body or an empty list of items the agent has no
    anomalies: [get_anomalies] returns the empty list, and [has_anomalies]
    and [has_anomalies_of_type], for any type, return [False]; none of
    them raises. *)
Theorem no_anomalies_on_empty_answer :
  forall (T : Type) (R : Rest T) (st st' : T) (id t : string) (body : json),
    do_get (anomalies_uri id) st = (Ok body, st') ->
    body = JNull \/
    (exists fields, body = JObj fields /\ lookup "items" fields = Some (JArr [])) ->
    outcome (AosManagedDevices.get_anomalies id st) = Ok [] /\
    outcome (AosManagedDevices.has_anomalies id st) = Ok false /\
    outcome (AosManagedDevices.has_anomalies_of_type id t st) = Ok false.
Proof.
  intros T R st st' id t body Hget Hbody.
  assert (Hgen : AosManagedDevices._iter_anomalies id st
                 = (Ok [], st', [Get (anomalies_uri id)])).
  { destruct Hbody as [->|(fields & -> & Hitems)].
    - apply iter_anomalies_null. exact Hget.
    - apply (iter_anomalies_items _ _ _ _ [] Hget Hitems). }
  destruct (consumers_of id t st _ _ _ Hgen) as (Hlist & Hany & Htype).
  rewrite Hlist, Hany, Htype. repeat split.
Qed.

Lemma no_anomalies_on_empty_answer_witness :
  outcome (AosManagedDevices.get_anomalies "s1" [Ok JNull]) = Ok [] /\
  outcome (AosManagedDevices.has_anomalies "s1" [Ok (JObj [("items", JArr [])])])
  = Ok false.
Proof.
  split.
  - refine (proj1 (no_anomalies_on_empty_answer _ Scripted [Ok JNull] [] "s1" "bgp"
                     JNull eq_refl _)).
    left. reflexivity.
  - refine (proj1 (proj2 (no_anomalies_on_empty_answer _ Scripted
                            [Ok (JObj [("items", JArr [])])] [] "s1" "bgp"
                            (JObj [("items", JArr [])]) eq_refl _))).
    right. eexists. split; reflexivity.
Defined.

(** X2.  [get_anomalies] returns one record per raw item, in the order of
    the response: the anomaly_type, id and severity of the item, and as
    agent_id the system_id of its identity, null when the item has no
    identity or the identity has no system_id. *)
Theorem get_anomalies_in_server_order :
  forall (T : Type) (R : Rest T) (st st' : T) (id : string) body items records,
    do_get (anomalies_uri id) st = (Ok (JObj body), st') ->
    lookup "items" body = Some (JArr items) ->
    Forall2 describes_anomaly items records ->
    outcome (AosManagedDevices.get_anomalies id st) = Ok records.
Proof.
  intros T R st st' id body items records Hget Hitems Hall.
  pose proof (iter_anomalies_items id st st' body items Hget Hitems) as Hgen.
  destruct (consumers_of id "" st _ _ _ Hgen) as (Hlist & _).
  rewrite Hlist, list_of_map. apply comprehension_all.
  eapply Forall2_impl; [|exact Hall]. apply anomaly_described.
Qed.

Lemma get_anomalies_in_server_order_witness :
  outcome (AosManagedDevices.get_anomalies "s1"
             [Ok (JObj [("items", JArr [example_anomaly; example_route_anomaly])])])
  = Ok [example_anomaly_record; example_route_record].
Proof.
  refine (get_anomalies_in_server_order _ Scripted
            [Ok (JObj [("items", JArr [example_anomaly; example_route_anomaly])])]
            [] "s1" _ [example_anomaly; example_route_anomaly] _ eq_refl eq_refl _).
  constructor; [|constructor; [|constructor]].
  - exists [("anomaly_type", JStr "bgp"); ("id", JStr "a1"); ("severity", JStr "critical")],
      (JStr "bgp"), (JStr "a1"), (JStr "critical").
    unfold absent_or_object. cbn. auto 10.
  - exists [("anomaly_type", JStr "route"); ("id", JStr "a2");
            ("identity", JObj [("system_id", JStr "s1")]); ("severity", JStr "low")],
      (JStr "route"), (JStr "a2"), (JStr "low").
    unfold absent_or_object. cbn. eauto 10.
Defined.

(** X3.  [has_anomalies_of_type] returns [True] as soon as it reaches an
    anomaly of the type asked for: when the items before it are anomalies
    of other types, the items after it are not looked at, whatever they
    are. *)
Theorem has_anomalies_of_type_stops_at_first_match :
  forall (T : Type) (R : Rest T) (st st' : T) (id t : string)
         body before records item a after,
    do_get (anomalies_uri id) st = (Ok (JObj body), st') ->
    lookup "items" body = Some (JArr (before ++ item :: after)) ->
    Forall2 describes_anomaly before records ->
    Forall (fun b => Anomaly.type b <> JStr t) records ->
    describes_anomaly item a ->
    Anomaly.type a = JStr t ->
    outcome (AosManagedDevices.has_anomalies_of_type id t st) = Ok true.
Proof.
  intros T R st st' id t body before records item a after
    Hget Hitems Hbefore Hother Hitem Htype.
  pose proof (iter_anomalies_items id st st' body _ Hget Hitems) as Hgen.
  destruct (consumers_of id t st _ _ _ Hgen) as (_ & _ & Hscan).
  rewrite Hscan. eapply scan_stops_at_match; eassumption.
Qed.

Lemma has_anomalies_of_type_stops_at_first_match_witness :
  outcome (AosManagedDevices.has_anomalies_of_type "s1" "route"
             [Ok (JObj [("items",
                         JArr [example_anomaly; example_route_anomaly; JNum 7])])])
  = Ok true.
Proof.
  refine (has_anomalies_of_type_stops_at_first_match _ Scripted
            [Ok (JObj [("items",
                        JArr [example_anomaly; example_route_anomaly; JNum 7])])]
            [] "s1" "route" _
            [example_anomaly] [example_anomaly_record] example_route_anomaly
            example_route_record [JNum 7] eq_refl eq_refl _ _ _ eq_refl).
  - constructor; [|constructor].
    exists [("anomaly_type", JStr "bgp"); ("id", JStr "a1"); ("severity", JStr "critical")],
      (JStr "bgp"), (JStr "a1"), (JStr "critical").
    unfold absent_or_object. cbn. auto 10.
  - constructor; [discriminate|constructor].
  - exists [("anomaly_type", JStr "route"); ("id", JStr "a2");
            ("identity", JObj [("system_id", JStr "s1")]); ("severity", JStr "low")],
      (JStr "route"), (JStr "a2"), (JStr "low").
    unfold absent_or_object. cbn. eauto 10.
Defined.

(** X4.  The two checks never contradict each other on one response: when
    [has_anomalies(id)] returns [False], [has_anomalies_of_type(id, t)]
    returns [False] for every type, and when [has_anomalies_of_type(id, t)]
    returns [True], [has_anomalies(id)] does not return [False] (it returns
    [True], or raises on a malformed later item). *)
Theorem anomaly_checks_consistent :
  forall (T : Type) (R : Rest T) (st : T) (id t : string),
    (outcome (AosManagedDevices.has_anomalies id st) = Ok false ->
     outcome (AosManagedDevices.has_anomalies_of_type id t st) = Ok false) /\
    (outcome (AosManagedDevices.has_anomalies_of_type id t st) = Ok true ->
     outcome (AosManagedDevices.has_anomalies id st) <> Ok false).
Proof.
  intros T R st id t.
  assert (Hfalse : outcome (AosManagedDevices.has_anomalies id st) = Ok false ->
                   outcome (AosManagedDevices.has_anomalies_of_type id t st) = Ok false).
  { destruct (AosManagedDevices._iter_anomalies id st) as [[[gen|e] st1] tr] eqn:Hgen.
    - destruct (consumers_of id t st _ _ _ Hgen) as (_ & Hany & Hscan).
      rewrite Hany, Hscan.
      destruct (AosManagedDevices.list_of gen) as [l|e] eqn:Hl; simpl; [|discriminate].
      destruct l; [|discriminate]. intros _.
      rewrite (list_of_all _ _ _ Hl). reflexivity.
    - unfold AosManagedDevices.has_anomalies, AosManagedDevices.get_anomalies,
        bind, outcome. rewrite Hgen. discriminate. }
  split; [exact Hfalse|].
  intros Htrue Hnone. rewrite (Hfalse Hnone) in Htrue. discriminate.
Qed.

Lemma anomaly_checks_consistent_witness :
  outcome (AosManagedDevices.has_anomalies_of_type "s1" "bgp"
             [Ok (JObj [("items", JArr [])])]) = Ok false /\
  outcome (AosManagedDevices.has_anomalies "s1" [Ok ragged_anomalies]) <> Ok false.
Proof.
  split.
  - apply (proj1 (anomaly_checks_consistent _ Scripted
                    [Ok (JObj [("items", JArr [])])] "s1" "bgp")).
    reflexivity.
  - apply (proj2 (anomaly_checks_consistent _ Scripted [Ok ragged_anomalies] "s1" "bgp")).
    reflexivity.
Defined.

(** ** The collections: malformed bodies and items *)

Section CollectionBodies.
Context {T : Type} `{Rest T}.

Lemma systems_of_items :
  forall st st' body items,
    do_get "/api/systems" st = (Ok (JObj body), st') ->
    lookup "items" body = Some (JArr items) ->
    outcome (AosManagedDevices.get_all st)
    = comprehension AosManagedDevices.system_agent items.
Proof.
  intros st st' body items Hget Hitems. unfold AosManagedDevices.get_all.
  step_get Hget. unfold bind, lift. cbn. rewrite Hitems. reflexivity.
Qed.

Lemma packages_of_items :
  forall st st' body items,
    do_get "/api/packages" st = (Ok (JObj body), st') ->
    lookup "items" body = Some (JArr items) ->
    outcome (AosSystemAgents.get_packages st)
    = comprehension AosSystemAgents.device_package items.
Proof.
  intros st st' body items Hget Hitems. unfold AosSystemAgents.get_packages.
  step_get Hget. unfold bind, lift. cbn. rewrite Hitems. reflexivity.
Qed.

Lemma os_images_of_items :
  forall st st' body items,
    do_get "/api/device-os/images" st = (Ok (JObj body), st') ->
    lookup "items" body = Some (JArr items) ->
    outcome (AosSystemAgents.get_os_images st)
    = comprehension AosSystemAgents.device_os_image items.
Proof.
  intros st st' body items Hget Hitems. unfold AosSystemAgents.get_os_images.
  step_get Hget. unfold bind, lift. cbn. rewrite Hitems. reflexivity.
Qed.

End CollectionBodies.

Lemma non_object_cases :
  forall v, ~ is_object v -> forall k d, get_default v k d = Err AttributeError.
Proof.
  intros v Hv k d. destruct v; try reflexivity.
  exfalso. apply Hv. eexists. reflexivity.
Qed.

Lemma system_agent_unfit :
  forall fields e,
    unfit_system fields e ->
    AosManagedDevices.system_agent (JObj fields) = Err e.
Proof.
  intros fields e Hunfit. unfold AosManagedDevices.system_agent, get.
  destruct Hunfit as [Hid|i v Hid Hstatus Hv|i v Hid Hstatus Hfacts Hv];
    cbn [subscript get_default]; rewrite Hid; cbn [rbind].
  - reflexivity.
  - rewrite Hstatus. cbn [rbind]. rewrite (non_object_cases _ Hv). reflexivity.
  - destruct Hstatus as [Hnone|[status Hsome]].
    + rewrite Hnone. cbn [rbind get_default lookup]. rewrite Hfacts. cbn [rbind].
      rewrite (non_object_cases _ Hv). reflexivity.
    + rewrite Hsome. cbn [rbind get_default].
      destruct (lookup "fqdn" status), (lookup "operation_mode" status); cbn [rbind];
        rewrite Hfacts; cbn [rbind]; rewrite (non_object_cases _ Hv); reflexivity.
Qed.

(** X5.  ManagedDevices [get_all] tolerates an absent status or facts, not
    a malformed one: when the first item that does not describe an agent is
    an object without id the call raises [KeyError('id')], and when it is
    an object whose status or facts is present but is not an object (a JSON
    null, for one) the call raises [AttributeError]; no agent is returned,
    not even those of the items before it. *)
Theorem managed_devices_get_all_unfit_item :
  forall (T : Type) (R : Rest T) (st st' : T) body before agents fields after e,
    do_get "/api/systems" st = (Ok (JObj body), st') ->
    lookup "items" body = Some (JArr (before ++ JObj fields :: after)) ->
    Forall2 describes_agent before agents ->
    unfit_system fields e ->
    outcome (AosManagedDevices.get_all st) = Err e.
Proof.
  intros T R st st' body before agents fields after e Hget Hitems Hbefore Hunfit.
  rewrite (systems_of_items st st' body _ Hget Hitems).
  apply comprehension_stops with (ys := agents).
  - eapply Forall2_impl; [|exact Hbefore]. apply system_agent_described.
  - apply system_agent_unfit. exact Hunfit.
Qed.

Lemma managed_devices_get_all_unfit_item_witness :
  outcome (AosManagedDevices.get_all
             [Ok (JObj [("items",
                         JArr [example_item;
                               JObj [("id", JStr "s2"); ("status", JNull)]])])])
  = Err AttributeError.
Proof.
  refine (managed_devices_get_all_unfit_item _ Scripted
            [Ok (JObj [("items",
                        JArr [example_item;
                              JObj [("id", JStr "s2"); ("status", JNull)]])])]
            [] _ [example_item] [example_agent]
            [("id", JStr "s2"); ("status", JNull)] [] AttributeError
            eq_refl eq_refl _ _).
  - constructor; [|constructor].
    exists [("id", JStr "s1"); ("status", JObj [("fqdn", JStr "sw1")]); ("facts", JObj [])],
      (JStr "s1").
    unfold absent_or_object. simpl. eauto 10.
  - apply unfit_status with (i := JStr "s2") (v := JNull);
      [reflexivity|reflexivity|].
    intros [fields Hfields]. discriminate Hfields.
Defined.

(** X6.  A body that is an object without the key [items] is an error for
    every collection: the systems (even for the empty object, which is not
    [None]), the packages, the OS images and the anomalies all raise
    [KeyError('items')]. *)
Theorem body_without_items :
  forall (T : Type) (R : Rest T) (st st' : T) (id : string) fields,
    lookup "items" fields = None ->
    (do_get "/api/systems" st = (Ok (JObj fields), st') ->
     outcome (AosManagedDevices.get_all st) = Err (KeyError "items")) /\
    (do_get "/api/packages" st = (Ok (JObj fields), st') ->
     outcome (AosSystemAgents.get_packages st) = Err (KeyError "items")) /\
    (do_get "/api/device-os/images" st = (Ok (JObj fields), st') ->
     outcome (AosSystemAgents.get_os_images st) = Err (KeyError "items")) /\
    (do_get (anomalies_uri id) st = (Ok (JObj fields), st') ->
     outcome (AosManagedDevices.get_anomalies id st) = Err (KeyError "items")).
Proof.
  intros T R st st' id fields Hnone. split; [|split; [|split]]; intros Hget.
  - unfold AosManagedDevices.get_all. step_get Hget.
    unfold bind, lift. cbn. rewrite Hnone. reflexivity.
  - unfold AosSystemAgents.get_packages. step_get Hget.
    unfold bind, lift. cbn. rewrite Hnone. reflexivity.
  - unfold AosSystemAgents.get_os_images. step_get Hget.
    unfold bind, lift. cbn. rewrite Hnone. reflexivity.
  - unfold AosManagedDevices.get_anomalies, AosManagedDevices._iter_anomalies.
    fold (anomalies_uri id).
    unfold bind at 1. erewrite bind_ok by (apply get_answer; exact Hget).
    cbn [is_None]. unfold bind, lift, outcome, final, trace. cbn.
    rewrite Hnone. reflexivity.
Qed.

Lemma body_without_items_witness :
  outcome (AosManagedDevices.get_all [Ok (JObj [])]) = Err (KeyError "items") /\
  outcome (AosManagedDevices.get_anomalies "s1" [Ok (JObj [("count", JNum 0)])])
  = Err (KeyError "items").
Proof.
  split.
  - apply (proj1 (body_without_items _ Scripted [Ok (JObj [])] [] "s1" []
                    eq_refl)).
    reflexivity.
  - apply (proj2 (proj2 (proj2
             (body_without_items _ Scripted [Ok (JObj [("count", JNum 0)])] [] "s1"
                [("count", JNum 0)] eq_refl)))).
    reflexivity.
Defined.

Lemma device_os_image_first_missing :
  forall fields k,
    first_missing os_image_keys fields = Some k ->
    AosSystemAgents.device_os_image (JObj fields) = Err (KeyError k).
Proof.
  intros fields k. unfold first_missing, os_image_keys, AosSystemAgents.device_os_image.
  simpl.
  destruct (lookup "description" fields); simpl; [|intros [= <-]; reflexivity].
  destruct (lookup "checksum" fields); simpl; [|intros [= <-]; reflexivity].
  destruct (lookup "image_name" fields); simpl; [|intros [= <-]; reflexivity].
  destruct (lookup "platform" fields); simpl; [|intros [= <-]; reflexivity].
  destruct (lookup "image_url" fields); simpl; [|intros [= <-]; reflexivity].
  destruct (lookup "type" fields); simpl; [|intros [= <-]; reflexivity].
  destruct (lookup "id" fields); simpl; [|intros [= <-]; reflexivity].
  discriminate.
Qed.

(** X7.  [get_os_images] has no check for an absent body either: on a null
    body it raises [TypeError].  On a list of items it raises the
    [KeyError] of the first of description, checksum, image_name, platform,
    image_url, type, id that the first incomplete item lacks, and returns
    no image, not even those of the complete items before it. *)
Theorem get_os_images_first_missing_key :
  forall (T : Type) (R : Rest T) (st st' : T),
    (do_get "/api/device-os/images" st = (Ok JNull, st') ->
     outcome (AosSystemAgents.get_os_images st) = Err TypeError) /\
    (forall body before images fields after k,
        do_get "/api/device-os/images" st = (Ok (JObj body), st') ->
        lookup "items" body = Some (JArr (before ++ JObj fields :: after)) ->
        Forall2 describes_os_image before images ->
        first_missing os_image_keys fields = Some k ->
        outcome (AosSystemAgents.get_os_images st) = Err (KeyError k)).
Proof.
  intros T R st st'. split.
  - intros Hget. unfold AosSystemAgents.get_os_images. step_get Hget. reflexivity.
  - intros body before images fields after k Hget Hitems Hbefore Hk.
    rewrite (os_images_of_items st st' body _ Hget Hitems).
    apply comprehension_stops with (ys := images).
    + eapply Forall2_impl; [|exact Hbefore]. apply device_os_image_described.
    + apply device_os_image_first_missing. exact Hk.
Qed.

Lemma get_os_images_first_missing_key_witness :
  outcome (AosSystemAgents.get_os_images [Ok JNull]) = Err TypeError /\
  outcome (AosSystemAgents.get_os_images
             [Ok (JObj [("items", JArr [example_image; example_image_without_id])])])
  = Err (KeyError "id").
Proof.
  split.
  - apply (proj1 (get_os_images_first_missing_key _ Scripted [Ok JNull] [])).
    reflexivity.
  - refine (proj2 (get_os_images_first_missing_key _ Scripted
                     [Ok (JObj [("items",
                                 JArr [example_image; example_image_without_id])])]
                     [])
              _ [example_image] [example_os_image] _ [] "id" eq_refl eq_refl _ eq_refl).
    constructor; [|constructor]. eexists. cbn. repeat split.
Defined.

Lemma device_package_first_missing :
  forall fields k,
    first_missing package_keys fields = Some k ->
    AosSystemAgents.device_package (JObj fields) = Err (KeyError k).
Proof.
  intros fields k. unfold first_missing, package_keys, AosSystemAgents.device_package.
  simpl.
  destruct (lookup "name" fields); simpl; [|intros [= <-]; reflexivity].
  destruct (lookup "version" fields); simpl; [|intros [= <-]; reflexivity].
  discriminate.
Qed.

(** X8.  [get_packages] requires a name and a version in every item: it
    raises the [KeyError] of the first of the two that the first
    incomplete item lacks, and returns no package, not even those of the
    complete items before it. *)
Theorem get_packages_first_missing_key :
  forall (T : Type) (R : Rest T) (st st' : T) body before packages fields after k,
    do_get "/api/packages" st = (Ok (JObj body), st') ->
    lookup "items" body = Some (JArr (before ++ JObj fields :: after)) ->
    Forall2 describes_package before packages ->
    first_missing package_keys fields = Some k ->
    outcome (AosSystemAgents.get_packages st) = Err (KeyError k).
Proof.
  intros T R st st' body before packages fields after k Hget Hitems Hbefore Hk.
  rewrite (packages_of_items st st' body _ Hget Hitems).
  apply comprehension_stops with (ys := packages).
  - eapply Forall2_impl; [|exact Hbefore]. apply device_package_described.
  - apply device_package_first_missing. exact Hk.
Qed.

Lemma get_packages_first_missing_key_witness :
  outcome (AosSystemAgents.get_packages
             [Ok (JObj [("items",
                         JArr [JObj [("name", JStr "eos"); ("version", JStr "4.24")];
                               JObj [("name", JStr "junos")]])])])
  = Err (KeyError "version").
Proof.
  refine (get_packages_first_missing_key _ Scripted
            [Ok (JObj [("items",
                        JArr [JObj [("name", JStr "eos"); ("version", JStr "4.24")];
                              JObj [("name", JStr "junos")]])])]
            [] _ [JObj [("name", JStr "eos"); ("version", JStr "4.24")]]
            [DevicePackage.mk (JStr "eos") (JStr "4.24")]
            [("name", JStr "junos")] [] "version" eq_refl eq_refl _ eq_refl).
  constructor; [|constructor]. eexists. cbn. repeat split.
Defined.

(** ** Errors of the transport *)

Section Raising.
Context {T : Type} `{Rest T}.

Lemma bind_raises :
  forall (A B : Type) (m : M T A) (f : A -> M T B) st e st1 tr1,
    m st = (Err e, st1, tr1) -> bind m f st = (Err e, st1, tr1).
Proof.
  intros A B m f st e st1 tr1 Hm. unfold bind. now rewrite Hm.
Qed.

Lemma iter_anomalies_raises :
  forall id st st' e,
    do_get (anomalies_uri id) st = (Err e, st') ->
    AosManagedDevices._iter_anomalies id st = (Err e, st', [Get (anomalies_uri id)]).
Proof.
  intros id st st' e Hget. unfold AosManagedDevices._iter_anomalies.
  fold (anomalies_uri id). apply bind_raises, get_answer, Hget.
Qed.

End Raising.

(** X9.  No method catches, wraps or replaces an exception of the
    transport: when the request of a method raises, the method raises the
    same exception, having issued that request and nothing else.  This
    holds for the systems, the anomalies and the two checks on them, the
    packages, the OS images, the device profiles and the lookup of a
    profile by name, and the acceptance of the running configuration. *)
Theorem transport_errors_propagate :
  forall (T : Type) (R : Rest T) (st st' : T) (e : exn)
         (id t name : string) (dp_id : option string),
    (do_get "/api/systems" st = (Err e, st') ->
     AosManagedDevices.get_all st = (Err e, st', [Get "/api/systems"])) /\
    (do_get (anomalies_uri id) st = (Err e, st') ->
     AosManagedDevices.get_anomalies id st = (Err e, st', [Get (anomalies_uri id)]) /\
     AosManagedDevices.has_anomalies id st = (Err e, st', [Get (anomalies_uri id)]) /\
     AosManagedDevices.has_anomalies_of_type id t st
     = (Err e, st', [Get (anomalies_uri id)])) /\
    (do_get "/api/packages" st = (Err e, st') ->
     AosSystemAgents.get_packages st = (Err e, st', [Get "/api/packages"])) /\
    (do_get "/api/device-os/images" st = (Err e, st') ->
     AosSystemAgents.get_os_images st = (Err e, st', [Get "/api/device-os/images"])) /\
    (do_get "/api/device-profiles" st = (Err e, st') ->
     AosDeviceProfiles.get_all st = (Err e, st', [Get "/api/device-profiles"]) /\
     (name <> "" ->
      AosDeviceProfiles.get_device_profile dp_id (Some name) st
      = (Err e, st', [Get "/api/device-profiles"]))) /\
    (do_post ("/api/systems/" ++ id ++ "/accept-running-config-as-golden") None st
     = (Err e, st') ->
     AosManagedDevices.accept_running_config_as_golden id st
     = (Err e, st',
        [Post ("/api/systems/" ++ id ++ "/accept-running-config-as-golden") None])).
Proof.
  intros T R st st' e id t name dp_id.
  split; [|split; [|split; [|split; [|split]]]].
  - intros Hget. apply bind_raises, get_answer, Hget.
  - intros Hget. pose proof (iter_anomalies_raises id st st' e Hget) as Hgen.
    assert (Hlist : AosManagedDevices.get_anomalies id st
                    = (Err e, st', [Get (anomalies_uri id)]))
      by (apply bind_raises, Hgen).
    split; [exact Hlist|]. split.
    + apply bind_raises, Hlist.
    + apply bind_raises, Hgen.
  - intros Hget. apply bind_raises, get_answer, Hget.
  - intros Hget. apply bind_raises, get_answer, Hget.
  - intros Hget. split.
    + apply get_answer, Hget.
    + intros Hname. unfold AosDeviceProfiles.get_device_profile.
      rewrite (given_name _ Hname). apply bind_raises, get_answer, Hget.
  - intros Hpost. apply bind_raises. unfold json_resp_post. now rewrite Hpost.
Qed.

Lemma transport_errors_propagate_witness :
  AosManagedDevices.has_anomalies "s1" [Err (AosAPIError "HTTP 500")]
  = (Err (AosAPIError "HTTP 500"), [], [Get "api/systems/s1/anomalies"]) /\
  AosDeviceProfiles.get_device_profile (Some "dp9") (Some "X")
    [Err (AosAPIError "HTTP 500"); Ok (example_profile "dp9" "X")]
  = (Err (AosAPIError "HTTP 500"), [Ok (example_profile "dp9" "X")],
     [Get "/api/device-profiles"]).
Proof.
  split.
  - apply (proj1 (proj2 (proj1 (proj2
             (transport_errors_propagate _ Scripted [Err (AosAPIError "HTTP 500")] []
                (AosAPIError "HTTP 500") "s1" "bgp" "X" None)) eq_refl))).
  - refine (proj2 (proj1 (proj2 (proj2 (proj2 (proj2
              (transport_errors_propagate _ Scripted
                 [Err (AosAPIError "HTTP 500"); Ok (example_profile "dp9" "X")]
                 [Ok (example_profile "dp9" "X")]
                 (AosAPIError "HTTP 500") "s1" "bgp" "X" (Some "dp9")))))) eq_refl) _).
    discriminate.
Defined.

(** ** DeviceProfiles: more on the lookup *)

(** X10.  Without a name, be it [None] or the empty string,
    [get_device_profile] never asks for the collection: its only request is
    the GET of [/api/device-profiles/{dp_id}], whose answer or exception is
    the result ([/api/device-profiles/None] when no id is given either). *)
Theorem get_device_profile_without_name :
  forall (T : Type) (R : Rest T) (st : T) (dp_id dp_name : option string),
    dp_name = None \/ dp_name = Some "" ->
    AosDeviceProfiles.get_device_profile dp_id dp_name st
    = (fst (do_get (profile_uri dp_id) st), snd (do_get (profile_uri dp_id) st),
       [Get (profile_uri dp_id)]).
Proof.
  intros T R st dp_id dp_name Hname.
  assert (Hgiven : AosDeviceProfiles.given dp_name = None)
    by (destruct Hname as [->| ->]; reflexivity).
  unfold AosDeviceProfiles.get_device_profile. rewrite Hgiven.
  fold (profile_uri dp_id). unfold json_resp_get.
  destruct (do_get (profile_uri dp_id) st) as [r st1]. reflexivity.
Qed.

Lemma get_device_profile_without_name_witness :
  AosDeviceProfiles.get_device_profile (Some "dp9") (Some "")
    [Ok (example_profile "dp9" "X")]
  = (Ok (example_profile "dp9" "X"), [], [Get "/api/device-profiles/dp9"]) /\
  AosDeviceProfiles.get_device_profile None None [Err (AosAPIError "HTTP 404")]
  = (Err (AosAPIError "HTTP 404"), [], [Get "/api/device-profiles/None"]).
Proof.
  split.
  - apply (get_device_profile_without_name _ Scripted
             [Ok (example_profile "dp9" "X")] (Some "dp9") (Some "")).
    right. reflexivity.
  - apply (get_device_profile_without_name _ Scripted
             [Err (AosAPIError "HTTP 404")] None None).
    left. reflexivity.
Defined.

Lemma scan_display_name_non_object :
  forall before x after name,
    Forall (fun dp => is_object dp /\ has_display_name name dp = false) before ->
    ~ is_object x ->
    AosDeviceProfiles.scan_display_name (before ++ x :: after) name
    = Err AttributeError.
Proof.
  intros before x after name Hbefore Hx.
  induction Hbefore as [|dp before [[fields ->] Hno] _ IH]; simpl.
  - unfold get. rewrite (non_object_cases _ Hx). reflexivity.
  - unfold get. simpl. simpl in Hno.
    destruct (lookup "display_name" fields) as [v|]; simpl.
    + rewrite Hno. exact IH.
    + exact IH.
Qed.

(** X11.  The lookup by name expects the collection to be a list of
    objects.  When the scan reaches an element that is not an object before
    it finds the name, the call raises [AttributeError] after the GET of
    the collection and never issues the GET by id.  A non-empty object as
    collection, such as [{"items": [...]}], is such a case: its elements
    are its keys, which are strings. *)
Theorem get_device_profile_non_object_element :
  forall (T : Type) (R : Rest T) (st st' : T) (dp_id : option string)
         (name : string) (dev_profs : json),
    name <> "" ->
    do_get "/api/device-profiles" st = (Ok dev_profs, st') ->
    (forall before x after,
        truthy dev_profs = true ->
        iter dev_profs = Ok (before ++ x :: after) ->
        Forall (fun dp => is_object dp /\ has_display_name name dp = false) before ->
        ~ is_object x ->
        AosDeviceProfiles.get_device_profile dp_id (Some name) st
        = (Err AttributeError, st', [Get "/api/device-profiles"])) /\
    (forall k v fields,
        dev_profs = JObj ((k, v) :: fields) ->
        AosDeviceProfiles.get_device_profile dp_id (Some name) st
        = (Err AttributeError, st', [Get "/api/device-profiles"])).
Proof.
  intros T R st st' dp_id name dev_profs Hname Hget.
  assert (Hgen : forall before x after,
             truthy dev_profs = true ->
             iter dev_profs = Ok (before ++ x :: after) ->
             Forall (fun dp => is_object dp /\ has_display_name name dp = false) before ->
             ~ is_object x ->
             AosDeviceProfiles.get_device_profile dp_id (Some name) st
             = (Err AttributeError, st', [Get "/api/device-profiles"])).
  { intros before x after Htruthy Hiter Hbefore Hx.
    unfold AosDeviceProfiles.get_device_profile. rewrite (given_name _ Hname).
    unfold AosDeviceProfiles.get_all.
    erewrite bind_ok by (apply get_answer; exact Hget).
    rewrite Htruthy. unfold bind, lift, outcome, final, trace. rewrite Hiter.
    rewrite (scan_display_name_non_object _ _ _ _ Hbefore Hx). reflexivity. }
  split; [exact Hgen|].
  intros k v fields ->.
  apply (Hgen [] (JStr k) (map (fun kv => JStr (fst kv)) fields)).
  - reflexivity.
  - reflexivity.
  - constructor.
  - intros [f Hf]. discriminate Hf.
Qed.

Lemma get_device_profile_non_object_element_witness :
  AosDeviceProfiles.get_device_profile (Some "dp9") (Some "X")
    [Ok (JObj [("items", JArr [example_profile "dp1" "X"])]);
     Ok (example_profile "dp9" "Y")]
  = (Err AttributeError, [Ok (example_profile "dp9" "Y")],
     [Get "/api/device-profiles"]).
Proof.
  refine (proj2 (get_device_profile_non_object_element _ Scripted
                   [Ok (JObj [("items", JArr [example_profile "dp1" "X"])]);
                    Ok (example_profile "dp9" "Y")]
                   [Ok (example_profile "dp9" "Y")] (Some "dp9") "X"
                   (JObj [("items", JArr [example_profile "dp1" "X"])]) _ eq_refl)
            "items" (JArr [example_profile "dp1" "X"]) [] eq_refl).
  discriminate.
Defined.

(** ** DeviceProfiles: more on the batches *)

Lemma pause_has_no_post :
  forall k, filter is_post (pause_after k) = [].
Proof.
  intros k. unfold pause_after. destruct (Nat.eqb (k mod 30) 0); reflexivity.
Qed.

Section FailingBatches.
Context {T : Type} `{Rest T}.

(** The loop, entered after [i] submissions, when the answer to the payload
    [p] is the first one it cannot go past. *)
Lemma add_loop_stops :
  forall before p after r e i ids st,
    Forall acceptable
      (firstn (length before)
         (post_answers "/api/device-profiles" (before ++ p :: after) st)) ->
    nth_error (post_answers "/api/device-profiles" (before ++ p :: after) st)
      (length before) = Some r ->
    create_failure r = Some e ->
    exists st' tr,
      AosDeviceProfiles.add_loop (before ++ p :: after) i ids st = (Err e, st', tr) /\
      filter is_post tr = map post_of (before ++ [p]).
Proof.
  induction before as [|b before IH]; intros p after r e i ids st Hacc Hnth Hfail.
  - cbn [app length AosDeviceProfiles.add_loop post_answers] in *.
    unfold bind at 1. unfold json_resp_post.
    destruct (do_post "/api/device-profiles" (Some p) st) as [r0 st1].
    simpl in Hnth. injection Hnth as ->.
    destruct r as [v|e0]; simpl in Hfail.
    + destruct (truthy v); [|discriminate].
      destruct (subscript v "id") as [j|e0] eqn:Hid; [discriminate|].
      injection Hfail as ->.
      exists st1, [post_of p]. split; reflexivity.
    + injection Hfail as ->. exists st1, [post_of p]. split; reflexivity.
  - cbn [app length AosDeviceProfiles.add_loop post_answers firstn] in *.
    unfold bind at 1. unfold json_resp_post.
    destruct (do_post "/api/device-profiles" (Some b) st) as [r0 st1].
    cbn [firstn nth_error] in Hacc, Hnth.
    inversion Hacc as [|r' rs (v & -> & Hv) Hrest]; subst.
    rewrite Nat.add_1_r.
    destruct Hv as [Hfalsy|(fields & j & -> & Hid)].
    + destruct (IH p after r e (S i) ids st1 Hrest Hnth Hfail) as (st' & tr & Hrun & Hposts).
      rewrite Hfalsy. rewrite (bind_silent _ _ _ _ st1 ids st1 eq_refl).
      rewrite (pause_step _ (S i) _ _ _ _ _ Hrun).
      exists st', ([post_of b] ++ pause_after (S i) ++ tr). split; [reflexivity|].
      cbn [app filter is_post post_of map]. rewrite filter_app, pause_has_no_post, Hposts.
      reflexivity.
    + destruct (IH p after r e (S i) (ids ++ [j]) st1 Hrest Hnth Hfail)
        as (st' & tr & Hrun & Hposts).
      assert (Htruthy : truthy (JObj fields) = true)
        by (destruct fields; [discriminate|reflexivity]).
      rewrite Htruthy.
      rewrite (bind_silent _ _ _ _ st1 (ids ++ [j]) st1).
      * rewrite (pause_step _ (S i) _ _ _ _ _ Hrun).
        exists st', ([post_of b] ++ pause_after (S i) ++ tr). split; [reflexivity|].
        cbn [app filter is_post post_of map].
        rewrite filter_app, pause_has_no_post, Hposts. reflexivity.
      * unfold bind, lift, ret, subscript. rewrite Hid. reflexivity.
Qed.

End FailingBatches.

(** X12.  [add_device_profiles] gives up at the first submission it cannot
    go past, either because the transport raises on it or because its
    answer is a truthy body without an id ([resp["id"]] raises): the call
    raises that exception, the ids created so far are not returned, and
    the payloads after it are not submitted. *)
Theorem add_device_profiles_stops_at_failure :
  forall (T : Type) (R : Rest T) (st : T) (before : list json) (p : json)
         (after : list json) (r : result json) (e : exn),
    Forall acceptable
      (firstn (length before)
         (post_answers "/api/device-profiles" (before ++ p :: after) st)) ->
    nth_error (post_answers "/api/device-profiles" (before ++ p :: after) st)
      (length before) = Some r ->
    create_failure r = Some e ->
    outcome (AosDeviceProfiles.add_device_profiles (before ++ p :: after) st) = Err e /\
    filter is_post
      (trace (AosDeviceProfiles.add_device_profiles (before ++ p :: after) st))
    = map post_of (before ++ [p]).
Proof.
  intros T R st before p after r e Hacc Hnth Hfail.
  destruct (add_loop_stops before p after r e 0 [] st Hacc Hnth Hfail)
    as (st' & tr & Hrun & Hposts).
  unfold AosDeviceProfiles.add_device_profiles. rewrite Hrun.
  split; [reflexivity|exact Hposts].
Qed.

Lemma add_device_profiles_stops_at_failure_witness :
  outcome (AosDeviceProfiles.add_device_profiles
             [JStr "p1"; JStr "p2"; JStr "p3"]
             [Ok (JObj [("id", JStr "dp1")]); Ok (JObj [("errors", JStr "invalid")]);
              Ok (JObj [("id", JStr "dp3")])])
  = Err (KeyError "id") /\
  filter is_post
    (trace (AosDeviceProfiles.add_device_profiles
              [JStr "p1"; JStr "p2"; JStr "p3"]
              [Ok (JObj [("id", JStr "dp1")]); Ok (JObj [("errors", JStr "invalid")]);
               Ok (JObj [("id", JStr "dp3")])]))
  = [post_of (JStr "p1"); post_of (JStr "p2")].
Proof.
  refine (add_device_profiles_stops_at_failure _ Scripted
            [Ok (JObj [("id", JStr "dp1")]); Ok (JObj [("errors", JStr "invalid")]);
             Ok (JObj [("id", JStr "dp3")])]
            [JStr "p1"] (JStr "p2") [JStr "p3"]
            (Ok (JObj [("errors", JStr "invalid")])) (KeyError "id") _ eq_refl eq_refl).
  cbn. constructor; [|constructor].
  eexists. split; [reflexivity|]. right. do 2 eexists. split; reflexivity.
Defined.

(** X13.  When the transport raises on a DELETE, [delete_device_profiles]
    has deleted the ids before it and has issued no DELETE for the ids
    after it: the requests made are those of the ids up to the failing one,
    in order, and the exception is all the caller gets. *)
Theorem delete_device_profiles_stops_at_failure :
  forall (T : Type) (R : Rest T) (st : T) (before : list string) (dp_id : string)
         (after : list string) (e : exn),
    (forall r,
        In r (firstn (length before)
                (delete_answers "/api/device-profiles" (before ++ dp_id :: after) st)) ->
        exists v, r = Ok v) ->
    nth_error (delete_answers "/api/device-profiles" (before ++ dp_id :: after) st)
      (length before) = Some (Err e) ->
    outcome (AosDeviceProfiles.delete_device_profiles (before ++ dp_id :: after) st)
    = Err e /\
    trace (AosDeviceProfiles.delete_device_profiles (before ++ dp_id :: after) st)
    = map delete_of (before ++ [dp_id]).
Proof.
  intros T R st before dp_id after e Hok Hnth.
  destruct (delete_loop_stops before dp_id after e [] st Hok Hnth) as (st' & Hrun).
  unfold AosDeviceProfiles.delete_device_profiles. rewrite Hrun.
  split; reflexivity.
Qed.

Lemma delete_device_profiles_stops_at_failure_witness :
  outcome (AosDeviceProfiles.delete_device_profiles ["a"; "b"; "c"; "d"]
             [Ok JNull; Ok JNull; Err (AosAPIError "HTTP 409")])
  = Err (AosAPIError "HTTP 409") /\
  trace (AosDeviceProfiles.delete_device_profiles ["a"; "b"; "c"; "d"]
           [Ok JNull; Ok JNull; Err (AosAPIError "HTTP 409")])
  = [delete_of "a"; delete_of "b"; delete_of "c"].
Proof.
  refine (delete_device_profiles_stops_at_failure _ Scripted
            [Ok JNull; Ok JNull; Err (AosAPIError "HTTP 409")]
            ["a"; "b"] "c" ["d"] (AosAPIError "HTTP 409") _ eq_refl).
  cbn. intros r [<-|[<-|[]]]; eauto.
Defined.

(** ** DeviceProfiles: the pauses of a batch *)

Lemma next_multiple_of_30 :
  forall j, S j / 30 = j / 30 + (if Nat.eqb (S j mod 30) 0 then 1 else 0).
Proof.
  intros j.
  pose proof (Nat.div_mod_eq (S j) 30) as HS.
  pose proof (Nat.div_mod_eq j 30) as Hj.
  pose proof (Nat.mod_upper_bound (S j) 30) as HSlt.
  pose proof (Nat.mod_upper_bound j 30) as Hjlt.
  destruct (Nat.eqb_spec (S j mod 30) 0); lia.
Qed.

Lemma pauses_of_submissions :
  forall (l : list json) (j : nat),
    filter is_sleep (flat_map submission (combine (seq (S j) (length l)) l))
    = repeat (Sleep 3) ((j + length l) / 30 - j / 30).
Proof.
  induction l as [|p tl IH]; intros j.
  - simpl. rewrite Nat.add_0_r, Nat.sub_diag. reflexivity.
  - cbn [length seq combine flat_map].
    rewrite filter_app, IH.
    assert (Hpause : filter is_sleep (submission (S j, p))
                     = repeat (Sleep 3) (if Nat.eqb (S j mod 30) 0 then 1 else 0)).
    { unfold submission, pause_after. cbn [fst snd filter is_sleep post_of].
      destruct (Nat.eqb (S j mod 30) 0); reflexivity. }
    rewrite Hpause.
    rewrite <- repeat_app. f_equal.
    pose proof (next_multiple_of_30 j) as Hnext.
    pose proof (Nat.Div0.div_le_mono (S j) (S j + length tl) 30) as Hmono.
    replace (j + S (length tl)) with (S j + length tl) by lia.
    lia.
Qed.

Lemma numbered_snoc :
  forall (A : Type) (l : list A) (x : A) (k : nat),
    combine (seq k (length (l ++ [x]))) (l ++ [x])
    = combine (seq k (length l)) l ++ [(k + length l, x)].
Proof.
  intros A l x. induction l as [|a tl IH]; intros k; simpl.
  - rewrite Nat.add_0_r. reflexivity.
  - rewrite IH. rewrite Nat.add_succ_r. reflexivity.
Qed.

(** X14.  A batch of [n] payloads whose answers are all falsy or carry an
    id makes [add_device_profiles] pause [n / 30] times (integer division),
    each time for 3: a batch of fewer than 30 payloads never pauses. *)
Theorem add_device_profiles_number_of_pauses :
  forall (T : Type) (R : Rest T) (st : T) (dp_list : list json),
    Forall acceptable (post_answers "/api/device-profiles" dp_list st) ->
    filter is_sleep (trace (AosDeviceProfiles.add_device_profiles dp_list st))
    = repeat (Sleep 3) (length dp_list / 30) /\
    (length dp_list < 30 ->
     filter is_sleep (trace (AosDeviceProfiles.add_device_profiles dp_list st)) = []).
Proof.
  intros T R st dp_list Hacc.
  destruct (add_loop_run dp_list 0 [] st Hacc) as [st' Hrun].
  unfold AosDeviceProfiles.add_device_profiles. rewrite Hrun.
  unfold trace. cbn [snd]. rewrite pauses_of_submissions.
  cbn [Nat.add]. rewrite (Nat.div_small 0 30) by lia. rewrite Nat.sub_0_r.
  split; [reflexivity|].
  intros Hlt. rewrite (Nat.div_small _ _ Hlt). reflexivity.
Qed.

Lemma add_device_profiles_number_of_pauses_witness :
  filter is_sleep
    (trace (AosDeviceProfiles.add_device_profiles
              (example_batch ++ example_batch) 100%Z))
  = [Sleep 3; Sleep 3].
Proof.
  refine (proj1 (add_device_profiles_number_of_pauses _ Counting 100%Z
                   (example_batch ++ example_batch) _)).
  cbv [example_batch post_answers app map seq do_post Counting].
  repeat (constructor;
          [eexists; split;
           [reflexivity|right; do 2 eexists; split; reflexivity]|]).
  constructor.
Defined.

(** X15.  The pause follows the submission, also the last one: when the
    answers are all falsy or carry an id and the size of the batch is a
    multiple of 30, the call ends with the POST of the last payload and
    then a pause of 3 before it returns; otherwise it ends with the POST
    of the last payload. *)
Theorem add_device_profiles_pause_after_last :
  forall (T : Type) (R : Rest T) (st : T) (dp_list : list json) (last : json),
    Forall acceptable (post_answers "/api/device-profiles" (dp_list ++ [last]) st) ->
    (length (dp_list ++ [last]) mod 30 = 0 ->
     trace (AosDeviceProfiles.add_device_profiles (dp_list ++ [last]) st)
     = flat_map submission (numbered dp_list) ++ [post_of last; Sleep 3]) /\
    (length (dp_list ++ [last]) mod 30 <> 0 ->
     trace (AosDeviceProfiles.add_device_profiles (dp_list ++ [last]) st)
     = flat_map submission (numbered dp_list) ++ [post_of last]).
Proof.
  intros T R st dp_list last Hacc.
  destruct (add_loop_run (dp_list ++ [last]) 0 [] st Hacc) as [st' Hrun].
  unfold AosDeviceProfiles.add_device_profiles. rewrite Hrun.
  unfold trace, numbered. cbn [snd].
  rewrite numbered_snoc, flat_map_app. cbn [flat_map submission fst snd app].
  rewrite app_nil_r, length_app. cbn [length].
  replace (length dp_list + 1) with (1 + length dp_list) by lia.
  unfold pause_after.
  split; intros Hmod.
  - rewrite Hmod. reflexivity.
  - destruct (Nat.eqb_spec ((1 + length dp_list) mod 30) 0); [contradiction|].
    reflexivity.
Qed.

Lemma add_device_profiles_pause_after_last_witness :
  trace (AosDeviceProfiles.add_device_profiles
           (firstn 29 example_batch ++ [JStr "p30"]) 100%Z)
  = flat_map submission (numbered (firstn 29 example_batch))
    ++ [post_of (JStr "p30"); Sleep 3].
Proof.
  refine (proj1 (add_device_profiles_pause_after_last _ Counting 100%Z
                   (firstn 29 example_batch) (JStr "p30") _) eq_refl).
  cbv [example_batch post_answers app firstn map seq do_post Counting].
  repeat (constructor;
          [eexists; split;
           [reflexivity|right; do 2 eexists; split; reflexivity]|]).
  constructor.
Defined.
